(** * Solar installation cost simulator (calc.py): model and properties

    The Python script computes with machine floats and small integers.  In
    this development every such number is an exact rational ([Q]); equalities
    between computed numbers are stated with [==] ([Qeq]).  The one float
    value that is not a rational and that the script can actually produce,
    the NaN returned by [np.mean] on an empty list, is modelled explicitly
    as [None] where it arises ([np_mean]).

    Objects mutated in place ([panel.power], [battery.soc], the energy plan's
    accumulators) are modelled by explicit state passing: a function that
    mutates its argument returns the updated record next to its result. *)

From Stdlib Require Import QArith Qpower Lqa ZArith Lia List String Bool.
Import ListNotations.
Open Scope Q_scope.

(** simulation time step size (hr) *)
Definition time_step : Q := 1.

(** ** Equipment records *)

Module SolarPanel.
Record t : Type := mk {
  name : string;
  (* power output (kW) *)
  power : Q;
  (* temperature coefficient of power (1/C, negative) *)
  tcp : Q;
  (* annual degradation rate *)
  degradation : Q;
  (* nominal module operating temperature *)
  nmot : Q;
  (* efficiency of non-panel electronics *)
  efficiency : Q
}.

(** [SolarPanel.__init__] *)
Definition init (name : string) (power_stc tcp degradation nmot efficiency : Q) : t :=
  mk name power_stc tcp degradation nmot efficiency.

(** the assignment [panel.power = v] *)
Definition set_power (p : t) (v : Q) : t :=
  mk (name p) v (tcp p) (degradation p) (nmot p) (efficiency p).
End SolarPanel.

Module Battery.
Record t : Type := mk {
  name : string;
  (* useable capacity (kWh) *)
  capacity : Q;
  (* inverter max power rating continuous (kW) *)
  max_power : Q;
  (* battery round-trip efficiency *)
  efficiency : Q;
  (* current state of charge (unitless, 0-1) *)
  soc : Q
}.

(** [Battery.__init__]: the state of charge starts at 0 *)
Definition init (name : string) (capacity max_power efficiency : Q) : t :=
  mk name capacity max_power efficiency 0.

(** the assignment [battery.soc = v] *)
Definition set_soc (b : t) (v : Q) : t :=
  mk (name b) (capacity b) (max_power b) (efficiency b) v.

(** energy held by the battery (kWh) *)
Definition stored (b : t) : Q := soc b * capacity b.
End Battery.

(** ** solar_sim *)

(** [solar_sim(panel, irr, temp_a)]: the energy output (kWh) of one time
    step, together with the panel after its in-place degradation update.
    The panel temperature is the constant the source assigns ([temp_p = 40]);
    [temp_a] and the two NMOT constants are read by nothing. *)
Definition solar_sim (panel : SolarPanel.t) (irr temp_a : Q) : SolarPanel.t * Q :=
  let irr_stc := 1.0 in
  let temp_stc := 25 in
  let temp_p := 40 in
  let pout := SolarPanel.power panel * SolarPanel.efficiency panel * irr / irr_stc
              * (1 + SolarPanel.tcp panel * (temp_p - temp_stc)) in
  let panel' := SolarPanel.set_power panel
                  (SolarPanel.power panel * (1 - SolarPanel.degradation panel / (24 * 365))) in
  (panel', pout * time_step).

(** The panel after one [solar_sim] call per sample, in order. *)
Definition solar_run (panel : SolarPanel.t) (samples : list (Q * Q)) : SolarPanel.t :=
  fold_left (fun p s => fst (solar_sim p (fst s) (snd s))) samples panel.

(** Rated power once the first [t] samples have been simulated. *)
Definition power_after (panel : SolarPanel.t) (samples : list (Q * Q)) (t : nat) : Q :=
  SolarPanel.power (solar_run panel (firstn t samples)).

(** ** battery_sim *)

(** Lines 102-113 of [battery_sim]: the inverter's continuous power limit.
    Returns [(e_resid, e_sys)] as they stand before [e_tot] is computed. *)
Definition inverter_limit (battery : Battery.t) (e_sys : Q) : Q * Q :=
  let battery_emax := Battery.max_power battery * time_step in
  if Qlt_le_dec battery_emax e_sys then
    (e_sys - battery_emax, battery_emax)
  else if Qlt_le_dec e_sys (- battery_emax) then
    (e_sys - battery_emax, - battery_emax)
  else
    (0, e_sys).

(** [battery_sim(battery, e_sys)]: the battery after the step and the
    residual energy returned. *)
Definition battery_sim (battery : Battery.t) (e_sys : Q) : Battery.t * Q :=
  let '(e_resid, e_sys) := inverter_limit battery e_sys in
  let e_tot := Battery.soc battery * Battery.capacity battery + e_sys in
  if Qlt_le_dec (Battery.capacity battery) e_tot then
    (Battery.set_soc battery 1.0,
     e_resid + Battery.efficiency battery * (e_tot - Battery.capacity battery))
  else if Qlt_le_dec e_tot 0.0 then
    (Battery.set_soc battery 0.0, e_resid + e_tot)
  else
    ((if Qeq_dec (Battery.capacity battery) 0 then battery
      else Battery.set_soc battery (e_tot / Battery.capacity battery)),
     e_resid).

(** A sequence of dispatch calls on one battery: the battery after the last
    call and the residuals in call order. *)
Fixpoint battery_run (battery : Battery.t) (inputs : list Q) : Battery.t * list Q :=
  match inputs with
  | [] => (battery, [])
  | e :: rest =>
      let '(battery', r) := battery_sim battery e in
      let '(final, rs) := battery_run battery' rest in
      (final, r :: rs)
  end.

(** The battery as it stands after each call of the sequence. *)
Fixpoint battery_trace (battery : Battery.t) (inputs : list Q) : list Battery.t :=
  match inputs with
  | [] => []
  | e :: rest =>
      let battery' := fst (battery_sim battery e) in
      battery' :: battery_trace battery' rest
  end.

Definition Qsum (l : list Q) : Q := fold_right Qplus 0 l.

(** Energy dropped by one step: when the candidate total exceeds the
    capacity, the excess is returned scaled by the efficiency, so
    [(1 - efficiency)] of it leaves the balance. *)
Definition overflow_loss (battery : Battery.t) (e_sys : Q) : Q :=
  let e_tot := Battery.soc battery * Battery.capacity battery
               + snd (inverter_limit battery e_sys) in
  if Qlt_le_dec (Battery.capacity battery) e_tot then
    (1 - Battery.efficiency battery) * (e_tot - Battery.capacity battery)
  else 0.

(** Losses of a sequence of calls, in call order. *)
Fixpoint run_losses (battery : Battery.t) (inputs : list Q) : list Q :=
  match inputs with
  | [] => []
  | e :: rest =>
      overflow_loss battery e :: run_losses (fst (battery_sim battery e)) rest
  end.

(** The catalogue of the script *)
Definition panels : list SolarPanel.t :=
  [ SolarPanel.init "None" 0 0 0 0 0;
    SolarPanel.init "LG" (0.335 * 0.98) (-0.0036) 0.0033 42.0 0.95;
    SolarPanel.init "REC" (0.330 * 0.975) (-0.0034) 0.007 44.6 0.95;
    SolarPanel.init "SILFAB" (0.330 * 0.98) (-0.00377) 0.006 43.5 0.95 ].

Definition batteries : list Battery.t :=
  [ Battery.init "None" 0 0 0;
    Battery.init "Tesla" 13.5 5 0.9 ].

(** ** Python values the tariff code relies on *)

(** Exceptions the modelled code can raise. *)
Inductive exn : Type :=
  | IndexError
  | AttributeError
  | NameError
  | ValueError (msg : string).

Inductive result (A : Type) : Type :=
  | Ok (a : A)
  | Raise (e : exn).
Arguments Ok {A} a.
Arguments Raise {A} e.

Definition bind {A B : Type} (r : result A) (k : A -> result B) : result B :=
  match r with
  | Ok a => k a
  | Raise e => Raise e
  end.

(** A float that may be NaN: [None] is NaN.  NaN absorbs in arithmetic and
    every ordered comparison with it is false. *)
Definition fnum : Type := option Q.

Definition fmul (a b : fnum) : fnum :=
  match a, b with
  | Some x, Some y => Some (x * y)
  | _, _ => None
  end.

Definition fadd (a b : fnum) : fnum :=
  match a, b with
  | Some x, Some y => Some (x + y)
  | _, _ => None
  end.

(** [a > b] *)
Definition fgt (a b : fnum) : bool :=
  match a, b with
  | Some x, Some y => if Qlt_le_dec y x then true else false
  | _, _ => false
  end.

(** [np.mean]: the arithmetic mean; NaN (with a warning, no exception) on an
    empty list. *)
Definition np_mean (l : list Q) : fnum :=
  match l with
  | [] => None
  | _ => Some (Qsum l / inject_Z (Z.of_nat (List.length l)))
  end.

(** The part of Python's [datetime] the script reads: [month], [hour] and
    [weekday()], the latter computed from the proleptic Gregorian ordinal as
    the standard library does (Monday is 0). *)
Module datetime.
Record t : Type := mk { year : Z; month : Z; day : Z; hour : Z }.

Definition is_leap (y : Z) : bool :=
  ((y mod 4 =? 0) && (negb (y mod 100 =? 0) || (y mod 400 =? 0)))%Z.

Definition days_before_year (y : Z) : Z :=
  (let y1 := y - 1 in y1 * 365 + y1 / 4 - y1 / 100 + y1 / 400)%Z.

Definition days_in_month (y m : Z) : Z :=
  (if (m =? 2) then (if is_leap y then 29 else 28)
   else if (m =? 4) || (m =? 6) || (m =? 9) || (m =? 11) then 30
   else 31)%Z.

Fixpoint days_before_month_aux (y : Z) (n : nat) : Z :=
  match n with
  | O => 0%Z
  | S k => (days_before_month_aux y k + days_in_month y (Z.of_nat n))%Z
  end.

(** number of days of year [y] that precede the first day of month [m] *)
Definition days_before_month (y m : Z) : Z :=
  days_before_month_aux y (Z.to_nat (m - 1)).

(** [tm_yday]: day of the year, 1-366 *)
Definition tm_yday (d : t) : Z :=
  (days_before_month (year d) (month d) + day d)%Z.

Definition toordinal (d : t) : Z :=
  (days_before_year (year d) + tm_yday d)%Z.

Definition weekday (d : t) : Z := ((toordinal d + 6) mod 7)%Z.
End datetime.

(** ** Energy plans *)

Module EnergyPlan.
Record t : Type := mk {
  name : string;
  (* peak power usage at any point in the simulated period *)
  peak : Q;
  (* peak power usage (during peak hours) for each simulated day *)
  daily_peaks : list Q;
  (* accumulated usage cost in the past billing period *)
  usage_cost : Q
}.

(** [EnergyPlan.reset] *)
Definition reset (self : t) : t := mk (name self) 0 [] 0.

(** [EnergyPlan.__init__]: stores the name and resets the state. *)
Definition init (name : string) : t := mk name 0 [] 0.

(** [self.usage_cost += v] *)
Definition add_usage (self : t) (v : Q) : t :=
  mk (name self) (peak self) (daily_peaks self) (usage_cost self + v).

Definition set_daily_peaks (self : t) (l : list Q) : t :=
  mk (name self) (peak self) l (usage_cost self).
End EnergyPlan.

(** weekdays 2pm-8pm *)
Definition afternoon_peak (time : datetime.t) : bool :=
  ((14 <=? datetime.hour time) && (datetime.hour time <? 20)
   && (datetime.weekday time <? 5))%Z.

(** weekdays 5am-9am and 5pm-9pm *)
Definition winter_peak (time : datetime.t) : bool :=
  ((((5 <=? datetime.hour time) && (datetime.hour time <? 9))
    || ((17 <=? datetime.hour time) && (datetime.hour time <? 21)))
   && (datetime.weekday time <? 5))%Z.

Definition is_peak_summer (time : datetime.t) : bool :=
  ((datetime.month time =? 7) || (datetime.month time =? 8))%Z.

Definition is_winter (time : datetime.t) : bool :=
  ((datetime.month time <=? 4) || (11 <=? datetime.month time))%Z.

(** [e13_usage(self, time, energy)] *)
Definition e13_usage (self : EnergyPlan.t) (time : datetime.t) (energy : Q) : EnergyPlan.t :=
  if Qlt_le_dec 0 energy then
    if is_peak_summer time then
      if afternoon_peak time then EnergyPlan.add_usage self (energy * 0.2409)
      else EnergyPlan.add_usage self (energy * 0.0730)
    else if is_winter time then
      if winter_peak time then EnergyPlan.add_usage self (energy * 0.0951)
      else EnergyPlan.add_usage self (energy * 0.0691)
    else
      if afternoon_peak time then EnergyPlan.add_usage self (energy * 0.2094)
      else EnergyPlan.add_usage self (energy * 0.0727)
  else
    EnergyPlan.add_usage self (energy * 0.0281).

(** [e13_total(self, time)]: the plan after [reset()] and the bill. *)
Definition e13_total (self : EnergyPlan.t) (time : datetime.t) : EnergyPlan.t * Q :=
  let service_charge := 32.44 in
  let total_cost :=
    if Qlt_le_dec 0.0 (EnergyPlan.usage_cost self)
    then service_charge + EnergyPlan.usage_cost self
    else service_charge in
  (EnergyPlan.reset self, total_cost).

(** [if energy > self.daily_peaks[-1]: self.daily_peaks[-1] = energy];
    indexing an empty list raises. *)
Definition raise_daily_peak (self : EnergyPlan.t) (energy : Q) : result EnergyPlan.t :=
  match rev (EnergyPlan.daily_peaks self) with
  | [] => Raise IndexError
  | current :: earlier =>
      if Qlt_le_dec current energy
      then Ok (EnergyPlan.set_daily_peaks self (rev earlier ++ [energy]))
      else Ok self
  end.

(** [e15_usage(self, time, energy)] *)
Definition e15_usage (self : EnergyPlan.t) (time : datetime.t) (energy : Q)
  : result EnergyPlan.t :=
  let self :=
    if (datetime.hour time =? 0)%Z
    then EnergyPlan.set_daily_peaks self (EnergyPlan.daily_peaks self ++ [0.0])
    else self in
  if is_peak_summer time then
    if afternoon_peak time
    then raise_daily_peak (EnergyPlan.add_usage self (energy * 0.0622)) energy
    else Ok (EnergyPlan.add_usage self (energy * 0.0412))
  else if is_winter time then
    if winter_peak time
    then raise_daily_peak (EnergyPlan.add_usage self (energy * 0.0410)) energy
    else Ok (EnergyPlan.add_usage self (energy * 0.0370))
  else
    if afternoon_peak time
    then raise_daily_peak (EnergyPlan.add_usage self (energy * 0.0462)) energy
    else Ok (EnergyPlan.add_usage self (energy * 0.0360)).

(** [e15_total(self, time)]: the plan after [reset()] and the bill.  The
    average peak charge is NaN when no daily peak was recorded. *)
Definition e15_total (self : EnergyPlan.t) (time : datetime.t) : EnergyPlan.t * fnum :=
  let service_charge := 32.44 in
  let average_peak_charge :=
    if is_peak_summer time then
      fmul (np_mean (EnergyPlan.daily_peaks self)) (Some 21.94)
    else if is_winter time then
      fmul (np_mean (EnergyPlan.daily_peaks self)) (Some 19.29)
    else
      fmul (np_mean (EnergyPlan.daily_peaks self)) (Some 8.13) in
  let total_cost :=
    if fgt (fadd (Some (EnergyPlan.usage_cost self)) average_peak_charge) (Some 0.0)
    then fadd (fadd (Some service_charge) (Some (EnergyPlan.usage_cost self)))
              average_peak_charge
    else Some service_charge in
  (EnergyPlan.reset self, total_cost).

(** The seasonal demand-charge rate, read off the three branches of
    [e15_total]. *)
Definition e15_demand_rate (time : datetime.t) : Q :=
  if is_peak_summer time then 21.94
  else if is_winter time then 19.29
  else 8.13.

(** The accumulated amount of the demand-charge plan: usage cost plus the
    mean daily peak times the seasonal demand rate (NaN without any daily
    peak). *)
Definition e15_amount (self : EnergyPlan.t) (time : datetime.t) : fnum :=
  fadd (Some (EnergyPlan.usage_cost self))
       (fmul (np_mean (EnergyPlan.daily_peaks self)) (Some (e15_demand_rate time))).

(** Whether [time] falls in the on-peak window of its season, as the three
    seasonal branches of [e15_usage] test it. *)
Definition e15_on_peak (time : datetime.t) : bool :=
  if is_peak_summer time then afternoon_peak time
  else if is_winter time then winter_peak time
  else afternoon_peak time.

(** The daily-peak list once [e15_usage] has passed its hour-0 test. *)
Definition opened_slots (self : EnergyPlan.t) (time : datetime.t) : list Q :=
  if (datetime.hour time =? 0)%Z
  then EnergyPlan.daily_peaks self ++ [0.0]
  else EnergyPlan.daily_peaks self.

(** A sequence of [e15_usage] calls on one plan; an exception ends it. *)
Fixpoint e15_run (self : EnergyPlan.t) (calls : list (datetime.t * Q))
  : result EnergyPlan.t :=
  match calls with
  | [] => Ok self
  | (time, energy) :: rest => bind (e15_usage self time energy) (fun s => e15_run s rest)
  end.

(** A sequence of [e13_usage] calls on one plan. *)
Definition e13_run (self : EnergyPlan.t) (calls : list (datetime.t * Q)) : EnergyPlan.t :=
  fold_left (fun s c => e13_usage s (fst c) (snd c)) calls self.

(** The 24 hourly calls of one day: [energy_at h] is imported at hour [h]. *)
Definition day_calls (y m d : Z) (energy_at : Z -> Q) : list (datetime.t * Q) :=
  map (fun h => (datetime.mk y m d (Z.of_nat h), energy_at (Z.of_nat h))) (seq 0 24).

(** ** The simulation loop *)

Definition year : Z := 2020.
Definition num_years : Z := 1.

(** The tariff functions attached to each plan by [EnergyPlan.__init__]. *)
Inductive plan_kind : Type := E13 | E15.

Definition plans : list (EnergyPlan.t * plan_kind) :=
  [ (EnergyPlan.init "E13", E13); (EnergyPlan.init "E15", E15) ].

(** Python list indexing with a non-negative index. *)
Definition py_index {A : Type} (l : list A) (i : Z) : result A :=
  match nth_error l (Z.to_nat i) with
  | Some a => Ok a
  | None => Raise IndexError
  end.

(** The body of the [while today < end_date] loop, statement by statement
    up to the first one that cannot complete: the script imports the module
    [datetime], which has no attribute [strptime], so evaluating the callee
    [datetime.strptime] raises before its argument (which reads the
    unassigned name [load_data_now]) is looked at.  Nothing after that
    statement is reached: neither the day-of-year comparison nor its
    [raise ValueError('solar and utility date/time mismatch')]. *)
Definition loop_body (solar_data load_data : list (list string)) (today : datetime.t)
  : result unit :=
  let day_idx := datetime.tm_yday today in
  bind (py_index load_data day_idx) (fun load_data_today =>
  Raise AttributeError).

(** One equipment combination: [monthly_bills = []], then the loop.  The
    loop condition [today < end_date] compares two dates, here through
    their ordinals; it holds on entry, so the body runs, and it never
    completes. *)
Definition simulate_combination (solar_data load_data : list (list string))
  : result (list Q) :=
  let monthly_bills : list Q := [] in
  let today := datetime.mk year 1 1 0 in
  let end_date := datetime.mk (year + num_years) 1 1 0 in
  if (datetime.toordinal today <? datetime.toordinal end_date)%Z
  then bind (loop_body solar_data load_data today) (fun _ => Ok monthly_bills)
  else Ok monthly_bills.

(** keys of the result mapping, in the order of the three nested loops *)
Definition combinations : list string :=
  flat_map (fun panel =>
    flat_map (fun battery =>
      map (fun plan =>
             (SolarPanel.name panel ++ ":" ++ Battery.name battery ++ ":"
              ++ EnergyPlan.name (fst plan))%string)
          plans)
      batteries)
    panels.

(** The nested loops over the combinations, filling [results]; the first
    exception ends the script.  Returns the mapping as it stands at the
    end, with the exception if one was raised. *)
Fixpoint simulate (solar_data load_data : list (list string)) (keys : list string)
  (results : list (string * list Q)) : list (string * list Q) * option exn :=
  match keys with
  | [] => (results, None)
  | k :: rest =>
      match simulate_combination solar_data load_data with
      | Ok monthly_bills =>
          simulate solar_data load_data rest (results ++ [(k, monthly_bills)])
      | Raise e => (results, Some e)
      end
  end.

(** Sample tables: a weather row for 4 July, load rows for 1 and 2 January. *)
Definition july_weather : list (list string) :=
  [["7"; "4"; "0"; "0"; "0"; "31.5"; "0"; "0"]]%string.

Definition january_load : list (list string) :=
  [["1/1/2020"; "12:0 am"; "1.2"]; ["1/2/2020"; "12:0 am"; "1.1"]]%string.

(** The script from the point where both files have been read:
    [solar_data] and [load_data] are the rows kept of each. *)
Definition simulation (solar_data load_data : list (list string))
  : list (string * list Q) * option exn :=
  simulate solar_data load_data combinations [].

(** ** Further parts of the script *)



(** Line 323 of the loop body, as a function of the values it reads:
    [grid_energy = - battery_sim(battery, solar_sim(panel, irradiance, temp) - load)].
    The argument is evaluated first, so the panel ages before the battery
    is dispatched; both updated objects are returned with the grid energy. *)
Definition grid_energy (panel : SolarPanel.t) (battery : Battery.t)
  (irradiance temp load : Q) : SolarPanel.t * Battery.t * Q :=
  let '(panel', generated) := solar_sim panel irradiance temp in
  let '(battery', residual) := battery_sim battery (generated - load) in
  (panel', battery', - residual).

(** The rate [e13_usage] applies to imported energy at [time], read off its
    six import branches. *)
Definition e13_import_rate (time : datetime.t) : Q :=
  if is_peak_summer time then
    if afternoon_peak time then 0.2409 else 0.0730
  else if is_winter time then
    if winter_peak time then 0.0951 else 0.0691
  else
    if afternoon_peak time then 0.2094 else 0.0727.

(** The rate [e15_usage] applies at [time], read off its six branches. *)
Definition e15_rate (time : datetime.t) : Q :=
  if is_peak_summer time then
    if afternoon_peak time then 0.0622 else 0.0412
  else if is_winter time then
    if winter_peak time then 0.0410 else 0.0370
  else
    if afternoon_peak time then 0.0462 else 0.0360.

(** What one [e13_usage] call adds to the usage cost. *)
Definition e13_hour_cost (c : datetime.t * Q) : Q :=
  snd c * (if Qlt_le_dec 0 (snd c) then e13_import_rate (fst c) else 0.0281).

(** What one completed [e15_usage] call adds to the usage cost. *)
Definition e15_hour_cost (c : datetime.t * Q) : Q := snd c * e15_rate (fst c).

(** Number of calls of a sequence made at hour 0. *)
Definition midnight_calls (calls : list (datetime.t * Q)) : nat :=
  List.length (filter (fun c => (datetime.hour (fst c) =? 0)%Z) calls).

(** * Properties *)

(** ** Battery dispatch *)

Section BatteryStep.
Variable b : Battery.t.
Variable e : Q.

Let emax := Battery.max_power b * time_step.


(** Deficit beyond the inverter limit: the code subtracts the limit once
    more instead of adding it back. *)
Lemma inverter_limit_deficit :
  0 <= emax -> e < - emax ->
  fst (inverter_limit b e) == e - emax /\ snd (inverter_limit b e) == - emax.
Proof.
  intros H0 H. unfold inverter_limit. fold emax.
  destruct (Qlt_le_dec emax e) as [Hgt|_]; simpl.
  - lra.
  - destruct (Qlt_le_dec e (- emax)) as [_|Hle]; simpl.
    + split; reflexivity.
    + lra.
Qed.


(** Whenever the deficit branch is not the one taken, the two outputs of
    the limiter add up to its input. *)
Lemma inverter_limit_splits :
  - emax <= e ->
  fst (inverter_limit b e) + snd (inverter_limit b e) == e.
Proof.
  intros Hlo. unfold inverter_limit. fold emax.
  destruct (Qlt_le_dec emax e) as [_|_]; simpl; [ring|].
  destruct (Qlt_le_dec e (- emax)) as [Hlt|_]; simpl; [lra|ring].
Qed.

(** The parameters of the battery are never written by a dispatch. *)
Lemma battery_sim_params :
  Battery.capacity (fst (battery_sim b e)) = Battery.capacity b
  /\ Battery.max_power (fst (battery_sim b e)) = Battery.max_power b
  /\ Battery.efficiency (fst (battery_sim b e)) = Battery.efficiency b
  /\ Battery.name (fst (battery_sim b e)) = Battery.name b.
Proof.
  unfold battery_sim.
  destruct (inverter_limit b e) as [r s].
  destruct (Qlt_le_dec _ _); [simpl; auto|].
  destruct (Qlt_le_dec _ _); [simpl; auto|].
  destruct (Qeq_dec _ _); simpl; auto.
Qed.

(** One dispatch keeps the state of charge within [0, 1]. *)
Lemma battery_sim_soc_bounds :
  0 <= Battery.soc b <= 1 ->
  0 <= Battery.soc (fst (battery_sim b e)) <= 1.
Proof.
  intros Hsoc. unfold battery_sim.
  destruct (inverter_limit b e) as [r s].
  destruct (Qlt_le_dec _ _) as [Hover|Hfit]; [simpl; lra|].
  destruct (Qlt_le_dec _ _) as [Hunder|Hpos]; [simpl; lra|].
  destruct (Qeq_dec _ _) as [Hz|Hnz]; simpl; [exact Hsoc|].
  assert (Hcap : 0 < Battery.capacity b) by lra.
  split.
  - apply Qle_shift_div_l; [exact Hcap|lra].
  - apply Qle_shift_div_r; [exact Hcap|lra].
Qed.

(** Energy balance of one dispatch whose input does not fall below the
    negative inverter limit. *)
Lemma battery_sim_balance :
  - emax <= e ->
  e == snd (battery_sim b e)
       + (Battery.stored (fst (battery_sim b e)) - Battery.stored b)
       + overflow_loss b e.
Proof.
  intros Hlo. pose proof (inverter_limit_splits Hlo) as Hsplit.
  unfold battery_sim, overflow_loss, Battery.stored.
  destruct (inverter_limit b e) as [r s]. simpl in Hsplit. simpl snd.
  destruct (Qlt_le_dec _ _) as [Hover|Hfit]; simpl.
  - lra.
  - destruct (Qlt_le_dec _ _) as [Hunder|Hpos]; simpl; [lra|].
    destruct (Qeq_dec _ _) as [Hz|Hnz]; simpl.
    + assert (Hs : Battery.soc b * Battery.capacity b == 0)
        by (rewrite Hz; ring).
      lra.
    + assert (Hd : (Battery.soc b * Battery.capacity b + s) / Battery.capacity b
                   * Battery.capacity b
                   == Battery.soc b * Battery.capacity b + s)
        by (field; exact Hnz).
      lra.
Qed.
End BatteryStep.

(** The parameters stay fixed along a whole run. *)
Lemma battery_sim_max_power (b : Battery.t) (e : Q) :
  Battery.max_power (fst (battery_sim b e)) = Battery.max_power b.
Proof. apply battery_sim_params. Qed.

(** Scenario of the inverter clamp: capacity 100, max power 2, efficiency
    0.9, empty battery, a surplus of 10 over one hour.  The residual is 8
    and the state of charge becomes 0.02. *)
Example inverter_clamp_scenario :
  let b := Battery.init "B" 100 2 0.9 in
  snd (battery_sim b 10) == 8
  /\ Battery.soc (fst (battery_sim b 10)) == 0.02
  /\ fst (inverter_limit b 10) == 8
  /\ snd (inverter_limit b 10) == 2.
Proof. vm_compute. repeat split; reflexivity. Qed.

(** C1 (the code departs from the claim): for a deficit beyond the inverter
    limit the claim gives the inverter-limited residual as
    netEnergy + max_power * time_step.  On the battery of the claim's own
    scenario (capacity 100, max power 2, efficiency 0.9, soc 0) a deficit of
    10 should leave -8 outside the battery and -10 in total; the code holds
    back -12 (netEnergy - max_power * time_step) and returns -14, more energy
    than was asked for.  The surplus half of the claim and its scenario hold,
    see [inverter_limit_surplus] and [inverter_clamp_scenario]. *)
Theorem inverter_limit_deficit_sign :
  fst (inverter_limit (Battery.init "B" 100 2 0.9) (-10)) == -10 - 2 * time_step
  /\ ~ fst (inverter_limit (Battery.init "B" 100 2 0.9) (-10)) == -10 + 2 * time_step
  /\ snd (battery_sim (Battery.init "B" 100 2 0.9) (-10)) == -14
  /\ Battery.soc (fst (battery_sim (Battery.init "B" 100 2 0.9) (-10))) == 0.
Proof.
  vm_compute. repeat split; try reflexivity. discriminate.
Qed.

(** Conservation along a run, from the one-step balance. *)
Lemma battery_run_balance (inputs : list Q) :
  forall b : Battery.t,
    Forall (fun e => - (Battery.max_power b * time_step) <= e) inputs ->
    Qsum inputs
    == Qsum (snd (battery_run b inputs))
       + (Battery.stored (fst (battery_run b inputs)) - Battery.stored b)
       + Qsum (run_losses b inputs).
Proof.
  induction inputs as [|e rest IH]; intros b Hall.
  - simpl. ring.
  - inversion Hall as [|e' rest' He Hrest]; subst.
    pose proof (battery_sim_balance b e He) as Hstep.
    pose proof (battery_sim_max_power b e) as Hmp.
    simpl. destruct (battery_sim b e) as [b1 r] eqn:Hsim. simpl in Hstep, Hmp.
    assert (Hrest1 : Forall (fun x => - (Battery.max_power b1 * time_step) <= x) rest)
      by (rewrite Hmp; exact Hrest).
    specialize (IH b1 Hrest1).
    destruct (battery_run b1 rest) as [final rs]. simpl in IH |- *.
    lra.
Qed.

(** C2 (as amended): for every battery and every finite sequence of dispatch
    calls none of whose inputs is below -(max_power * time_step), the sum of
    the inputs equals the sum of the returned residuals plus the change in
    stored energy soc * capacity plus, for every call whose candidate total
    exceeded the capacity, the share (1 - efficiency) of that excess. *)
Theorem dispatch_energy_balance (b : Battery.t) (inputs : list Q) :
  Forall (fun e => - (Battery.max_power b * time_step) <= e) inputs ->
  Qsum inputs
  == Qsum (snd (battery_run b inputs))
     + (Battery.stored (fst (battery_run b inputs)) - Battery.stored b)
     + Qsum (run_losses b inputs).
Proof. apply battery_run_balance. Qed.

Lemma dispatch_energy_balance_witness :
  Forall (fun e => - (Battery.max_power (Battery.init "Tesla" 13.5 5 0.9) * time_step) <= e)
         [4; 20; -3; 12]
  /\ Qsum [4; 20; -3; 12]
     == Qsum (snd (battery_run (Battery.init "Tesla" 13.5 5 0.9) [4; 20; -3; 12]))
        + (Battery.stored (fst (battery_run (Battery.init "Tesla" 13.5 5 0.9) [4; 20; -3; 12]))
           - Battery.stored (Battery.init "Tesla" 13.5 5 0.9))
        + Qsum (run_losses (Battery.init "Tesla" 13.5 5 0.9) [4; 20; -3; 12]).
Proof.
  assert (H : Forall (fun e => - (Battery.max_power (Battery.init "Tesla" 13.5 5 0.9)
                                  * time_step) <= e) [4; 20; -3; 12]).
  { repeat constructor; vm_compute; discriminate. }
  split; [exact H | exact (dispatch_energy_balance _ _ H)].
Defined.

(** C2 (as stated, refuted): an empty battery of capacity 1, max power 5 and
    efficiency 0.9 receives 3: it fills up (stored energy +1) and returns
    0.9 * 2 = 1.8, so 0.2 of the input is in neither the residual nor the
    battery. *)
Lemma dispatch_energy_not_conserved :
  0 <= Battery.capacity (Battery.init "B" 1 5 0.9)
  /\ 0 <= Battery.soc (Battery.init "B" 1 5 0.9) <= 1
  /\ ~ Qsum [3]
       == Qsum (snd (battery_run (Battery.init "B" 1 5 0.9) [3]))
          + (Battery.stored (fst (battery_run (Battery.init "B" 1 5 0.9) [3]))
             - Battery.stored (Battery.init "B" 1 5 0.9)).
Proof.
  vm_compute. repeat split; discriminate.
Qed.

(** C3 (as amended): a battery with capacity 0 and max power 0 (the "None"
    battery of the catalogue) is a pure pass-through: for every input and
    every efficiency the dispatch returns its input and leaves the battery,
    state of charge included, as it was. *)
Theorem zero_battery_pass_through (b : Battery.t) (x : Q) :
  Battery.capacity b == 0 ->
  Battery.max_power b == 0 ->
  snd (battery_sim b x) == x /\ fst (battery_sim b x) = b.
Proof.
  intros Hcap Hmp.
  assert (Hstored : Battery.soc b * Battery.capacity b == 0) by (rewrite Hcap; ring).
  assert (Hemax : Battery.max_power b * time_step == 0) by (rewrite Hmp; ring).
  unfold battery_sim, inverter_limit.
  destruct (Qlt_le_dec (Battery.max_power b * time_step) x) as [Hgt|Hle].
  - destruct (Qlt_le_dec _ _) as [Hover|_]; [lra|].
    destruct (Qlt_le_dec _ _) as [Hunder|_]; [lra|].
    destruct (Qeq_dec _ _) as [_|Hnz]; [|contradiction].
    simpl. split; [lra|reflexivity].
  - destruct (Qlt_le_dec x _) as [Hlt|Hge].
    + destruct (Qlt_le_dec _ _) as [Hover|_]; [lra|].
      destruct (Qlt_le_dec _ _) as [Hunder|_]; [lra|].
      destruct (Qeq_dec _ _) as [_|Hnz]; [|contradiction].
      simpl. split; [lra|reflexivity].
    + destruct (Qlt_le_dec _ _) as [Hover|_]; [lra|].
      destruct (Qlt_le_dec _ _) as [Hunder|_]; [lra|].
      destruct (Qeq_dec _ _) as [_|Hnz]; [|contradiction].
      simpl. split; [lra|reflexivity].
Qed.

Lemma zero_battery_pass_through_witness :
  snd (battery_sim (Battery.init "None" 0 0 0) (-7)) == -7
  /\ fst (battery_sim (Battery.init "None" 0 0 0) (-7)) = Battery.init "None" 0 0 0.
Proof.
  apply (zero_battery_pass_through (Battery.init "None" 0 0 0) (-7)); reflexivity.
Defined.

(** C3 (as stated, refuted): capacity 0 with max power 5 and efficiency 0.9:
    a surplus of 3 comes back as 2.7 and the state of charge jumps from its
    default 0 to 1. *)
Lemma zero_capacity_not_pass_through :
  Battery.capacity (Battery.init "B" 0 5 0.9) == 0
  /\ ~ snd (battery_sim (Battery.init "B" 0 5 0.9) 3) == 3
  /\ snd (battery_sim (Battery.init "B" 0 5 0.9) 3) == 2.7
  /\ Battery.soc (fst (battery_sim (Battery.init "B" 0 5 0.9) 3)) == 1
  /\ ~ Battery.soc (fst (battery_sim (Battery.init "B" 0 5 0.9) 3))
       == Battery.soc (Battery.init "B" 0 5 0.9).
Proof.
  vm_compute. repeat split; try reflexivity; discriminate.
Qed.

(** C4: if the state of charge starts within [0, 1], it is within [0, 1]
    after every dispatch call of any sequence of calls, whatever the inputs
    (and whatever the capacity). *)
Theorem soc_bounds_invariant (inputs : list Q) :
  forall b : Battery.t,
    0 <= Battery.soc b <= 1 ->
    Forall (fun b' => 0 <= Battery.soc b' <= 1) (battery_trace b inputs).
Proof.
  induction inputs as [|e rest IH]; intros b Hsoc; simpl.
  - constructor.
  - pose proof (battery_sim_soc_bounds b e Hsoc) as Hstep.
    constructor; [exact Hstep | apply IH; exact Hstep].
Qed.

Lemma soc_bounds_invariant_witness :
  Forall (fun b' => 0 <= Battery.soc b' <= 1)
         (battery_trace (Battery.init "Tesla" 13.5 5 0.9) [4; 20; -30; 12]).
Proof.
  apply (soc_bounds_invariant [4; 20; -30; 12] (Battery.init "Tesla" 13.5 5 0.9)).
  split; vm_compute; discriminate.
Defined.

(** ** Solar panel *)

(** The hourly degradation factor lies strictly between 0 and 1 for an
    annual rate strictly between 0 and 1. *)
Lemma hourly_factor_bounds (d : Q) :
  0 < d -> d < 1 -> 0 < 1 - d / (24 * 365) /\ 1 - d / (24 * 365) < 1.
Proof.
  intros H0 H1.
  assert (E : d / (24 * 365) == d * (1 # 8760)) by (field; discriminate).
  rewrite E. lra.
Qed.

(** One call: the new rated power is between 0 and the old one. *)
Lemma solar_sim_power_step (p : SolarPanel.t) (irr temp_a : Q) :
  0 < SolarPanel.degradation p -> SolarPanel.degradation p < 1 ->
  0 <= SolarPanel.power p ->
  0 <= SolarPanel.power (fst (solar_sim p irr temp_a)) <= SolarPanel.power p.
Proof.
  intros H0 H1 Hp. simpl.
  destruct (hourly_factor_bounds _ H0 H1) as [Hf0 Hf1].
  set (f := 1 - SolarPanel.degradation p / (24 * 365)) in *.
  split.
  - apply Qmult_le_0_compat; lra.
  - assert (Hm : SolarPanel.power p * f <= SolarPanel.power p * 1).
    { rewrite (Qmult_comm _ f), (Qmult_comm _ 1).
      apply Qmult_le_compat_r; lra. }
    lra.
Qed.

Lemma solar_sim_degradation_fixed (p : SolarPanel.t) (irr temp_a : Q) :
  SolarPanel.degradation (fst (solar_sim p irr temp_a)) = SolarPanel.degradation p.
Proof. reflexivity. Qed.

(** Hour after hour: the rated power never increases and stays non-negative. *)
Lemma power_after_monotone (t : nat) :
  forall (samples : list (Q * Q)) (p : SolarPanel.t),
    0 < SolarPanel.degradation p -> SolarPanel.degradation p < 1 ->
    0 <= SolarPanel.power p ->
    power_after p samples (S t) <= power_after p samples t
    /\ 0 <= power_after p samples t.
Proof.
  unfold power_after, solar_run.
  induction t as [|t IH]; intros samples p H0 H1 Hp.
  - destruct samples as [|[irr temp_a] rest]; simpl.
    + lra.
    + pose proof (solar_sim_power_step p irr temp_a H0 H1 Hp) as Hs.
      simpl in Hs. lra.
  - destruct samples as [|[irr temp_a] rest].
    + simpl. lra.
    + pose proof (solar_sim_power_step p irr temp_a H0 H1 Hp) as [Hs _].
      change (firstn (S (S t)) ((irr, temp_a) :: rest))
        with ((irr, temp_a) :: firstn (S t) rest).
      change (firstn (S t) ((irr, temp_a) :: rest))
        with ((irr, temp_a) :: firstn t rest).
      cbn [fold_left fst snd].
      apply IH.
      * rewrite solar_sim_degradation_fixed. exact H0.
      * rewrite solar_sim_degradation_fixed. exact H1.
      * exact Hs.
Qed.

(** C6: every call of [solar_sim], whatever the irradiance and the ambient
    temperature, replaces the rated power by
    power * (1 - degradation / (24 * 365)); and for a degradation rate
    strictly between 0 and 1 and a non-negative rated power, the rated power
    after hour t+1 is at most the rated power after hour t and is never
    negative. *)
Theorem panel_degradation :
  (forall (p : SolarPanel.t) (irr temp_a : Q),
      SolarPanel.power (fst (solar_sim p irr temp_a))
      == SolarPanel.power p * (1 - SolarPanel.degradation p / (24 * 365)))
  /\ (forall (p : SolarPanel.t) (samples : list (Q * Q)) (t : nat),
         0 < SolarPanel.degradation p -> SolarPanel.degradation p < 1 ->
         0 <= SolarPanel.power p ->
         power_after p samples (S t) <= power_after p samples t
         /\ 0 <= power_after p samples t).
Proof.
  split.
  - intros p irr temp_a. reflexivity.
  - intros p samples t. apply power_after_monotone.
Qed.

Lemma panel_degradation_witness :
  power_after (SolarPanel.init "REC" (0.330 * 0.975) (-0.0034) 0.007 44.6 0.95)
              [(0, 12); (0.6, 25); (0, 18)] 2
  <= power_after (SolarPanel.init "REC" (0.330 * 0.975) (-0.0034) 0.007 44.6 0.95)
                 [(0, 12); (0.6, 25); (0, 18)] 1
  /\ 0 <= power_after (SolarPanel.init "REC" (0.330 * 0.975) (-0.0034) 0.007 44.6 0.95)
                      [(0, 12); (0.6, 25); (0, 18)] 1.
Proof.
  apply (proj2 panel_degradation
           (SolarPanel.init "REC" (0.330 * 0.975) (-0.0034) 0.007 44.6 0.95)
           [(0, 12); (0.6, 25); (0, 18)] 1%nat);
    vm_compute; try reflexivity; discriminate.
Defined.

(** C8: the energy returned by [solar_sim] is
    power * efficiency * (irradiance / 1.0) * (1 + tcp * (cellTemp - 25)) * time_step
    with the rated power as it was before this call's degradation update and
    the cell temperature fixed at 40; the value is returned as computed, so
    it is negative whenever the formula is (here: a steep negative
    temperature coefficient). *)
Theorem solar_sim_output :
  (forall (p : SolarPanel.t) (irr temp_a : Q),
      snd (solar_sim p irr temp_a)
      == SolarPanel.power p * SolarPanel.efficiency p * (irr / 1.0)
         * (1 + SolarPanel.tcp p * (40 - 25)) * time_step)
  /\ snd (solar_sim (SolarPanel.init "P" 1 (-0.1) 0.005 45 0.95) 1 20) == - 0.475
  /\ snd (solar_sim (SolarPanel.init "P" 1 (-0.1) 0.005 45 0.95) 1 20) < 0.
Proof.
  split; [|split].
  - intros p irr temp_a. unfold solar_sim. simpl. field.
  - vm_compute. reflexivity.
  - vm_compute. reflexivity.
Qed.

(** ** Tariff settlement *)

(** The average peak charge of [e15_total] for a non-empty list of daily
    peaks. *)
Lemma e15_amount_mean (self : EnergyPlan.t) (time : datetime.t) :
  EnergyPlan.daily_peaks self <> [] ->
  e15_amount self time
  = Some (EnergyPlan.usage_cost self
          + Qsum (EnergyPlan.daily_peaks self)
            / inject_Z (Z.of_nat (List.length (EnergyPlan.daily_peaks self)))
            * e15_demand_rate time).
Proof.
  intros Hne. unfold e15_amount, np_mean.
  destruct (EnergyPlan.daily_peaks self) as [|d ds]; [contradiction|reflexivity].
Qed.

(** [e15_total] in terms of the accumulated amount. *)
Lemma e15_total_by_amount (self : EnergyPlan.t) (time : datetime.t) :
  snd (e15_total self time)
  = if fgt (e15_amount self time) (Some 0.0)
    then fadd (Some (32.44 + EnergyPlan.usage_cost self))
              (fmul (np_mean (EnergyPlan.daily_peaks self)) (Some (e15_demand_rate time)))
    else Some 32.44.
Proof.
  unfold e15_total, e15_amount, e15_demand_rate.
  destruct (is_peak_summer time); [reflexivity|].
  destruct (is_winter time); reflexivity.
Qed.

(** C5: for both tariffs the bill is the service charge (32.44) plus the
    accumulated amount when that amount is positive, and exactly the service
    charge when it is zero or negative; the amount is the usage cost for
    E13, and the usage cost plus mean daily peak times the seasonal demand
    rate for E15.  Both settlements return the plan reset to the state of a
    freshly built plan, so whatever is accumulated and settled next gives
    what a fresh plan would give. *)
Theorem settle_bill_and_reset (self : EnergyPlan.t) (time : datetime.t) :
  (0 < EnergyPlan.usage_cost self ->
   snd (e13_total self time) == 32.44 + EnergyPlan.usage_cost self)
  /\ (EnergyPlan.usage_cost self <= 0 -> snd (e13_total self time) == 32.44)
  /\ (forall a : Q, e15_amount self time = Some a -> 0 < a ->
      exists bill : Q, snd (e15_total self time) = Some bill /\ bill == 32.44 + a)
  /\ (forall a : Q, e15_amount self time = Some a -> a <= 0 ->
      snd (e15_total self time) = Some 32.44)
  /\ fst (e13_total self time) = EnergyPlan.init (EnergyPlan.name self)
  /\ fst (e15_total self time) = EnergyPlan.init (EnergyPlan.name self)
  /\ (forall (calls : list (datetime.t * Q)) (time' : datetime.t),
      e13_total (e13_run (fst (e13_total self time)) calls) time'
      = e13_total (e13_run (EnergyPlan.init (EnergyPlan.name self)) calls) time')
  /\ (forall (calls : list (datetime.t * Q)),
      e15_run (fst (e15_total self time)) calls
      = e15_run (EnergyPlan.init (EnergyPlan.name self)) calls).
Proof.
  repeat split.
  - intros Hpos. unfold e13_total. simpl.
    destruct (Qlt_le_dec _ _) as [_|Hle]; [reflexivity|].
    change (0.0 : Q) with (0 # 10) in Hle. lra.
  - intros Hneg. unfold e13_total. simpl.
    destruct (Qlt_le_dec _ _) as [Hlt|_]; [|reflexivity].
    change (0.0 : Q) with (0 # 10) in Hlt. lra.
  - intros a Ha Hpos. rewrite e15_total_by_amount, Ha.
    unfold e15_amount in Ha.
    destruct (np_mean (EnergyPlan.daily_peaks self)) as [m|]; [|discriminate].
    simpl in Ha. injection Ha as Ha. simpl.
    destruct (Qlt_le_dec _ _) as [_|Hle].
    + eexists. split; [reflexivity|]. rewrite <- Ha. ring.
    + change (0.0 : Q) with (0 # 10) in Hle. lra.
  - intros a Ha Hneg. rewrite e15_total_by_amount, Ha. simpl.
    destruct (Qlt_le_dec _ _) as [Hlt|_]; [|reflexivity].
    change (0.0 : Q) with (0 # 10) in Hlt. lra.
Qed.

Lemma settle_bill_and_reset_witness :
  snd (e13_total (EnergyPlan.mk "E13" 0 [] 10) (datetime.mk 2020 7 31 23)) == 32.44 + 10
  /\ (exists bill : Q,
         snd (e15_total (EnergyPlan.mk "E15" 0 [5; 3] 10) (datetime.mk 2020 7 31 23))
         = Some bill
         /\ bill == 32.44 + (10 + (5 + (3 + 0)) / 2 * 21.94))
  /\ snd (e15_total (EnergyPlan.mk "E15" 0 [0; 0] (-4)) (datetime.mk 2020 7 31 23))
     = Some 32.44.
Proof.
  split; [|split].
  - apply (proj1 (settle_bill_and_reset (EnergyPlan.mk "E13" 0 [] 10)
                                        (datetime.mk 2020 7 31 23))).
    reflexivity.
  - apply (proj1 (proj2 (proj2 (settle_bill_and_reset (EnergyPlan.mk "E15" 0 [5; 3] 10)
                                                      (datetime.mk 2020 7 31 23))))).
    + reflexivity.
    + reflexivity.
  - apply (proj1 (proj2 (proj2 (proj2
             (settle_bill_and_reset (EnergyPlan.mk "E15" 0 [0; 0] (-4))
                                    (datetime.mk 2020 7 31 23)))))
             (-4 + (0 + (0 + 0)) / 2 * 21.94)).
    + reflexivity.
    + vm_compute. discriminate.
Defined.

(** C9 (as amended): settling the demand-charge plan while the daily-peak
    list is empty raises nothing: the mean is NaN, the comparison of the
    accumulated amount with zero is therefore false, the bill is exactly the
    service charge 32.44 whatever the usage cost, and the plan is reset. *)
Theorem e15_total_without_peaks (self : EnergyPlan.t) (time : datetime.t) :
  EnergyPlan.daily_peaks self = [] ->
  e15_amount self time = None
  /\ e15_total self time = (EnergyPlan.init (EnergyPlan.name self), Some 32.44).
Proof.
  intros Hempty. unfold e15_amount, e15_total. rewrite Hempty. simpl.
  split; [reflexivity|].
  destruct (is_peak_summer time); [reflexivity|].
  destruct (is_winter time); reflexivity.
Qed.

Lemma e15_total_without_peaks_witness :
  e15_amount (EnergyPlan.mk "E15" 0 [] 250) (datetime.mk 2020 1 31 23) = None
  /\ e15_total (EnergyPlan.mk "E15" 0 [] 250) (datetime.mk 2020 1 31 23)
     = (EnergyPlan.init "E15", Some 32.44).
Proof.
  apply (e15_total_without_peaks (EnergyPlan.mk "E15" 0 [] 250) (datetime.mk 2020 1 31 23)).
  reflexivity.
Defined.

(** C9 (as stated, refuted): a freshly built demand-charge plan, whose
    daily-peak list is empty, is settled for July 2020: the call completes
    and hands back a bill, the service charge. *)
Lemma e15_total_empty_returns_bill :
  EnergyPlan.daily_peaks (EnergyPlan.init "E15") = []
  /\ exists bill : Q,
       snd (e15_total (EnergyPlan.init "E15") (datetime.mk 2020 7 31 23)) = Some bill
       /\ bill == 32.44.
Proof.
  split; [reflexivity|].
  exists 32.44. split; reflexivity.
Qed.

(** ** Daily peaks of the demand-charge plan *)

(** What [raise_daily_peak] can do to the list of daily peaks. *)
Lemma raise_daily_peak_spec (self s' : EnergyPlan.t) (energy : Q) :
  raise_daily_peak self energy = Ok s' ->
  EnergyPlan.daily_peaks s' = EnergyPlan.daily_peaks self
  \/ exists current,
       last (EnergyPlan.daily_peaks self) 0 = current
       /\ In current (EnergyPlan.daily_peaks self)
       /\ current < energy
       /\ EnergyPlan.daily_peaks s'
          = removelast (EnergyPlan.daily_peaks self) ++ [energy].
Proof.
  unfold raise_daily_peak. intros H.
  destruct (rev (EnergyPlan.daily_peaks self)) as [|current earlier] eqn:Hrev;
    [discriminate|].
  assert (Hdp : EnergyPlan.daily_peaks self = rev earlier ++ [current]).
  { rewrite <- (rev_involutive (EnergyPlan.daily_peaks self)), Hrev. reflexivity. }
  destruct (Qlt_le_dec current energy) as [Hlt|Hle]; injection H as <-.
  - right. exists current. rewrite Hdp. repeat split.
    + apply last_last.
    + apply in_or_app. right. left. reflexivity.
    + exact Hlt.
    + simpl. rewrite removelast_last. reflexivity.
  - left. reflexivity.
Qed.

(** No on-peak window contains hour 0. *)
Lemma hour0_off_peak (time : datetime.t) :
  datetime.hour time = 0%Z -> e15_on_peak time = false.
Proof.
  intros H. unfold e15_on_peak, afternoon_peak, winter_peak. rewrite H. simpl.
  destruct (is_peak_summer time), (is_winter time); reflexivity.
Qed.

(** Off peak, [e15_usage] completes and only the hour-0 test touches the
    list of daily peaks. *)
Lemma e15_usage_off_peak (self : EnergyPlan.t) (time : datetime.t) (energy : Q) :
  e15_on_peak time = false ->
  exists s', e15_usage self time energy = Ok s'
             /\ EnergyPlan.daily_peaks s' = opened_slots self time.
Proof.
  unfold e15_on_peak, e15_usage, opened_slots. intros Hoff.
  destruct (is_peak_summer time).
  - rewrite Hoff. eexists. split; [reflexivity|].
    destruct (datetime.hour time =? 0)%Z; reflexivity.
  - destruct (is_winter time); rewrite Hoff; eexists; (split; [reflexivity|]);
      destruct (datetime.hour time =? 0)%Z; reflexivity.
Qed.

(** Whenever [e15_usage] completes, the list of daily peaks is either what
    the hour-0 test left, or its last slot was raised, on peak, to an
    energy above the previous value of that slot. *)
Lemma e15_usage_peaks (self s' : EnergyPlan.t) (time : datetime.t) (energy : Q) :
  e15_usage self time energy = Ok s' ->
  EnergyPlan.daily_peaks s' = opened_slots self time
  \/ (e15_on_peak time = true
      /\ In (last (opened_slots self time) 0) (opened_slots self time)
      /\ last (opened_slots self time) 0 < energy
      /\ EnergyPlan.daily_peaks s' = removelast (opened_slots self time) ++ [energy]).
Proof.
  intros H.
  destruct (e15_on_peak time) eqn:Hpeak.
  - assert (Hr : exists rate,
               raise_daily_peak
                 (EnergyPlan.add_usage
                    (EnergyPlan.set_daily_peaks self (opened_slots self time))
                    (energy * rate)) energy = Ok s').
    { unfold e15_on_peak in Hpeak. unfold e15_usage, opened_slots in *.
      destruct (is_peak_summer time); [|destruct (is_winter time)];
        rewrite Hpeak in H; eexists;
        destruct (datetime.hour time =? 0)%Z; try exact H;
        destruct self; exact H. }
    destruct Hr as [rate Hr].
    apply raise_daily_peak_spec in Hr. simpl in Hr.
    destruct Hr as [Hsame | (current & Hlast & Hin & Hlt & Hnew)].
    + left. exact Hsame.
    + right. subst current. repeat split; assumption.
  - left. destruct (e15_usage_off_peak self time energy Hpeak) as (s & Hs & Hdp).
    rewrite Hs in H. injection H as <-. exact Hdp.
Qed.

Lemma opened_slots_nonneg (self : EnergyPlan.t) (time : datetime.t) :
  Forall (fun x => 0 <= x) (EnergyPlan.daily_peaks self) ->
  Forall (fun x => 0 <= x) (opened_slots self time).
Proof.
  intros H. unfold opened_slots.
  destruct (datetime.hour time =? 0)%Z; [|exact H].
  apply Forall_app. split; [exact H|].
  constructor; [|constructor]. vm_compute. discriminate.
Qed.

Lemma Forall_removelast {A : Type} (P : A -> Prop) (l : list A) :
  Forall P l -> Forall P (removelast l).
Proof.
  induction 1 as [|x l Hx Hl IH]; simpl.
  - constructor.
  - destruct l; [constructor|]. constructor; [exact Hx|exact IH].
Qed.

(** Recorded peaks start at 0.0 and are only ever raised, so they stay
    non-negative: the hypothesis of part (3) below holds in every state a
    plan reaches from its initial or reset state. *)
Lemma e15_usage_keeps_nonneg (self s' : EnergyPlan.t) (time : datetime.t) (energy : Q) :
  Forall (fun x => 0 <= x) (EnergyPlan.daily_peaks self) ->
  e15_usage self time energy = Ok s' ->
  Forall (fun x => 0 <= x) (EnergyPlan.daily_peaks s').
Proof.
  intros Hnn Hrun.
  pose proof (opened_slots_nonneg self time Hnn) as Hopen.
  destruct (e15_usage_peaks self s' time energy Hrun)
    as [Hsame | (_ & Hin & Hlt & Hnew)].
  - rewrite Hsame. exact Hopen.
  - rewrite Hnew. apply Forall_app. split.
    + apply Forall_removelast. exact Hopen.
    + rewrite Forall_forall in Hopen. specialize (Hopen _ Hin).
      constructor; [lra|constructor].
Qed.

Lemma e15_run_keeps_nonneg (calls : list (datetime.t * Q)) :
  forall self s' : EnergyPlan.t,
    Forall (fun x => 0 <= x) (EnergyPlan.daily_peaks self) ->
    e15_run self calls = Ok s' ->
    Forall (fun x => 0 <= x) (EnergyPlan.daily_peaks s').
Proof.
  induction calls as [|[time energy] rest IH]; intros self s' Hnn Hrun; simpl in Hrun.
  - injection Hrun as <-. exact Hnn.
  - destruct (e15_usage self time energy) as [s1|e] eqn:Hstep; simpl in Hrun;
      [|discriminate].
    apply (IH s1 s'); [|exact Hrun].
    apply (e15_usage_keeps_nonneg self s1 time energy Hnn Hstep).
Qed.

(** C7: for the demand-charge plan, (1) a call at hour 0 completes and
    appends a slot holding 0.0 to the daily peaks; (2) a call outside the
    on-peak window of its season leaves every recorded peak as it was;
    (3) when the recorded peaks are non-negative, the only change a call can
    make beyond opening a slot is to replace the current day's slot, on
    peak, by a strictly positive (imported) energy larger than the slot;
    (4) 24 hourly calls on Wednesday 1 July 2020 importing 5 at hour 15 and
    0 at every other hour leave exactly one daily peak, equal to 5. *)
Theorem e15_daily_peak_tracking :
  (forall (self : EnergyPlan.t) (time : datetime.t) (energy : Q),
      datetime.hour time = 0%Z ->
      exists s', e15_usage self time energy = Ok s'
                 /\ EnergyPlan.daily_peaks s' = EnergyPlan.daily_peaks self ++ [0.0])
  /\ (forall (self : EnergyPlan.t) (time : datetime.t) (energy : Q),
         e15_on_peak time = false -> datetime.hour time <> 0%Z ->
         exists s', e15_usage self time energy = Ok s'
                    /\ EnergyPlan.daily_peaks s' = EnergyPlan.daily_peaks self)
  /\ (forall (self s' : EnergyPlan.t) (time : datetime.t) (energy : Q),
         Forall (fun x => 0 <= x) (EnergyPlan.daily_peaks self) ->
         e15_usage self time energy = Ok s' ->
         EnergyPlan.daily_peaks s' <> opened_slots self time ->
         e15_on_peak time = true
         /\ 0 < energy
         /\ last (opened_slots self time) 0 < energy
         /\ EnergyPlan.daily_peaks s' = removelast (opened_slots self time) ++ [energy])
  /\ (datetime.weekday (datetime.mk 2020 7 1 15) = 2%Z
      /\ e15_on_peak (datetime.mk 2020 7 1 15) = true
      /\ exists s,
           e15_run (EnergyPlan.init "E15")
                   (day_calls 2020 7 1 (fun h => if (h =? 15)%Z then 5 else 0))
           = Ok s
           /\ EnergyPlan.daily_peaks s = [5]).
Proof.
  split; [|split; [|split]].
  - intros self time energy H0.
    destruct (e15_usage_off_peak self time energy (hour0_off_peak time H0))
      as (s' & Hs & Hdp).
    exists s'. split; [exact Hs|].
    rewrite Hdp. unfold opened_slots. rewrite H0. reflexivity.
  - intros self time energy Hoff Hh.
    destruct (e15_usage_off_peak self time energy Hoff) as (s' & Hs & Hdp).
    exists s'. split; [exact Hs|].
    rewrite Hdp. unfold opened_slots.
    destruct (Z.eqb_spec (datetime.hour time) 0); [contradiction|reflexivity].
  - intros self s' time energy Hnn Hrun Hchanged.
    destruct (e15_usage_peaks self s' time energy Hrun)
      as [Hsame | (Hpeak & Hin & Hlt & Hnew)]; [contradiction|].
    pose proof (opened_slots_nonneg self time Hnn) as Hopen.
    rewrite Forall_forall in Hopen. specialize (Hopen _ Hin).
    repeat split; try assumption. lra.
  - split; [reflexivity|]. split; [reflexivity|].
    eexists. split; [vm_compute; reflexivity|reflexivity].
Qed.

Lemma e15_daily_peak_tracking_witness :
  (exists s', e15_usage (EnergyPlan.init "E15") (datetime.mk 2020 7 1 0) 3 = Ok s'
              /\ EnergyPlan.daily_peaks s'
                 = EnergyPlan.daily_peaks (EnergyPlan.init "E15") ++ [0.0])
  /\ (exists s', e15_usage (EnergyPlan.mk "E15" 0 [1] 0) (datetime.mk 2020 7 4 15) 3 = Ok s'
                 /\ EnergyPlan.daily_peaks s' = [1])
  /\ (e15_on_peak (datetime.mk 2020 7 1 15) = true
      /\ 0 < 3
      /\ last (opened_slots (EnergyPlan.mk "E15" 0 [1] 0) (datetime.mk 2020 7 1 15)) 0 < 3
      /\ EnergyPlan.daily_peaks
           (EnergyPlan.mk "E15" 0 [3] (0 + 3 * 0.0622))
         = removelast (opened_slots (EnergyPlan.mk "E15" 0 [1] 0) (datetime.mk 2020 7 1 15))
           ++ [3]).
Proof.
  split; [|split].
  - apply (proj1 e15_daily_peak_tracking). reflexivity.
  - apply (proj1 (proj2 e15_daily_peak_tracking)
             (EnergyPlan.mk "E15" 0 [1] 0) (datetime.mk 2020 7 4 15) 3).
    + reflexivity.
    + discriminate.
  - apply (proj1 (proj2 (proj2 e15_daily_peak_tracking))
             (EnergyPlan.mk "E15" 0 [1] 0) (EnergyPlan.mk "E15" 0 [3] (0 + 3 * 0.0622))
             (datetime.mk 2020 7 1 15) 3).
    + repeat constructor. vm_compute. discriminate.
    + reflexivity.
    + discriminate.
Defined.

(** ** The simulation loop *)

(** The loop body never completes. *)
Lemma loop_body_raises (solar_data load_data : list (list string)) (today : datetime.t) :
  loop_body solar_data load_data today = Raise IndexError
  \/ loop_body solar_data load_data today = Raise AttributeError.
Proof.
  unfold loop_body, py_index.
  destruct (nth_error load_data _); simpl; [right|left]; reflexivity.
Qed.

(** C10 (the code departs from the claim): the script never gets to compare
    the weather and the load timestamps.  Whatever the two tables hold, the
    first pass through the loop body of the first combination stops with an
    [IndexError] (fewer than two load rows) or an [AttributeError]
    ([datetime.strptime] on the module), the mismatch error is never the one
    raised, and the result mapping is still empty.  The instance: a load
    table for 1 and 2 January against a weather row for 4 July. *)
Theorem simulation_never_checks_timestamps :
  (forall solar_data load_data : list (list string),
      fst (simulation solar_data load_data) = []
      /\ (snd (simulation solar_data load_data) = Some IndexError
          \/ snd (simulation solar_data load_data) = Some AttributeError)
      /\ forall msg, snd (simulation solar_data load_data) <> Some (ValueError msg))
  /\ simulation july_weather january_load = ([], Some AttributeError).
Proof.
  split; [|reflexivity].
  intros solar_data load_data.
  unfold simulation. simpl. unfold simulate_combination.
  change (datetime.toordinal (datetime.mk year 1 1 0)
          <? datetime.toordinal (datetime.mk (year + num_years) 1 1 0))%Z with true.
  cbv zeta iota.
  destruct (loop_body_raises solar_data load_data (datetime.mk year 1 1 0)) as [H|H];
    rewrite H; simpl; repeat split; auto; discriminate.
Qed.

(** * Further properties of the code *)

(** ** Battery dispatch, case by case *)

Lemma Qdiv_mult_cancel (x c : Q) : ~ c == 0 -> x / c * c == x.
Proof. intros H. field. exact H. Qed.

(** With a state of charge in [0, 1] and a non-negative capacity, the
    stored energy lies between 0 and the capacity. *)
Lemma stored_bounds (b : Battery.t) :
  0 <= Battery.soc b <= 1 -> 0 <= Battery.capacity b ->
  0 <= Battery.soc b * Battery.capacity b <= Battery.capacity b.
Proof.
  intros [Hlo Hhi] Hcap. split.
  - apply Qmult_le_0_compat; assumption.
  - assert (H : Battery.soc b * Battery.capacity b <= 1 * Battery.capacity b)
      by (apply Qmult_le_compat_r; assumption).
    lra.
Qed.


(** [battery_sim] once the outcome of the inverter limit is known. *)
Lemma battery_sim_after_limit (b : Battery.t) (e r s : Q) :
  inverter_limit b e = (r, s) ->
  battery_sim b e
  = let e_tot := Battery.soc b * Battery.capacity b + s in
    if Qlt_le_dec (Battery.capacity b) e_tot then
      (Battery.set_soc b 1.0, r + Battery.efficiency b * (e_tot - Battery.capacity b))
    else if Qlt_le_dec e_tot 0.0 then
      (Battery.set_soc b 0.0, r + e_tot)
    else
      ((if Qeq_dec (Battery.capacity b) 0 then b
        else Battery.set_soc b (e_tot / Battery.capacity b)),
       r).
Proof. intros H. unfold battery_sim. rewrite H. reflexivity. Qed.

(** The three outcomes of the second half of [battery_sim], with the
    stored energy after the step. *)
Lemma battery_sim_outcomes (b : Battery.t) (e r s : Q) :
  inverter_limit b e = (r, s) ->
  let stored := Battery.soc b * Battery.capacity b in
  (Battery.capacity b < stored + s ->
   snd (battery_sim b e) == r + Battery.efficiency b * (stored + s - Battery.capacity b)
   /\ Battery.soc (fst (battery_sim b e)) == 1)
  /\ (stored + s <= Battery.capacity b -> stored + s < 0 ->
      snd (battery_sim b e) == r + (stored + s)
      /\ Battery.soc (fst (battery_sim b e)) == 0)
  /\ (stored + s <= Battery.capacity b -> 0 <= stored + s ->
      snd (battery_sim b e) == r
      /\ Battery.stored (fst (battery_sim b e)) == stored + s).
Proof.
  intros Hlim stored. rewrite (battery_sim_after_limit b e r s Hlim).
  fold stored. cbv zeta. unfold Battery.stored.
  destruct (Qlt_le_dec (Battery.capacity b) (stored + s)) as [Hover|Hfit].
  - repeat split; intros; simpl; try reflexivity; lra.
  - destruct (Qlt_le_dec (stored + s) 0.0) as [Hunder|Hpos].
    + repeat split; intros; simpl; try reflexivity; lra.
    + destruct (Qeq_dec (Battery.capacity b) 0) as [Hz|Hnz].
      * assert (Hs : stored == 0) by (unfold stored; rewrite Hz; ring).
        repeat split; intros; simpl; try reflexivity; try lra.
        fold stored. lra.
      * pose proof (Qdiv_mult_cancel (stored + s) (Battery.capacity b) Hnz) as Hd.
        repeat split; intros; simpl; try reflexivity; lra.
Qed.

(** The stored energy after the step, in the two saturating outcomes. *)
Lemma battery_sim_saturated (b : Battery.t) (e r s : Q) :
  inverter_limit b e = (r, s) ->
  let stored := Battery.soc b * Battery.capacity b in
  (Battery.capacity b < stored + s ->
   Battery.stored (fst (battery_sim b e)) == Battery.capacity b)
  /\ (stored + s <= Battery.capacity b -> stored + s < 0 ->
      Battery.stored (fst (battery_sim b e)) == 0).
Proof.
  intros Hlim stored. rewrite (battery_sim_after_limit b e r s Hlim).
  fold stored. cbv zeta. unfold Battery.stored.
  destruct (Qlt_le_dec (Battery.capacity b) (stored + s)) as [Hover|Hfit].
  - split; intros; simpl; [ring|lra].
  - destruct (Qlt_le_dec (stored + s) 0.0) as [Hunder|Hpos].
    + split; intros; simpl; [lra|ring].
    + split; intros; lra.
Qed.

(** Case analysis on the candidate total [stored + s] against the capacity
    and zero; [Hres] and [Hsto] describe the residual and the stored energy
    of the case at hand. *)
Ltac dispatch_cases b e r s Hlim :=
  let Hover := fresh "Hover" in
  let Hunder := fresh "Hunder" in
  let Hfit := fresh "Hfit" in
  let Sover := fresh "Sover" in
  let Sunder := fresh "Sunder" in
  let Hc := fresh "Hc" in
  let Hz := fresh "Hz" in
  pose proof (battery_sim_outcomes b e r s Hlim) as (Hover & Hunder & Hfit);
  pose proof (battery_sim_saturated b e r s Hlim) as (Sover & Sunder);
  cbv zeta in Hover, Hunder, Hfit, Sover, Sunder;
  destruct (Qlt_le_dec (Battery.capacity b) (Battery.soc b * Battery.capacity b + s))
    as [Hc|Hc];
  [ specialize (Hover Hc); specialize (Sover Hc); clear Hunder Hfit Sunder
  | destruct (Qlt_le_dec (Battery.soc b * Battery.capacity b + s) 0) as [Hz|Hz];
    [ specialize (Hunder Hc Hz); specialize (Sunder Hc Hz); clear Hover Hfit Sover
    | specialize (Hfit Hc Hz); clear Hover Hunder Sover Sunder ] ].






(** X3: a deficit beyond the inverter limit, on a battery in a sane state
    with a positive max power: the residual is at most the deficit minus
    the limit, so the grid is asked for more than the household lacks,
    while the battery is not charged. *)
Theorem deficit_beyond_limit_overdrawn (b : Battery.t) (e : Q) :
  0 <= Battery.soc b <= 1 ->
  0 <= Battery.capacity b ->
  0 < Battery.max_power b ->
  e < - (Battery.max_power b * time_step) ->
  snd (battery_sim b e) <= e - Battery.max_power b * time_step
  /\ snd (battery_sim b e) < e
  /\ Battery.stored (fst (battery_sim b e)) <= Battery.stored b.
Proof.
  intros Hsoc Hcap Hmp Hlt.
  pose proof (stored_bounds b Hsoc Hcap) as Hst.
  assert (Hemax : 0 < Battery.max_power b * time_step)
    by (unfold time_step; lra).
  destruct (inverter_limit b e) as [r s] eqn:Hlim.
  pose proof (inverter_limit_deficit b e ltac:(lra) Hlt) as Hd.
  rewrite Hlim in Hd. simpl in Hd. destruct Hd as [Hr Hs].
  dispatch_cases b e r s Hlim; unfold Battery.stored in *;
    repeat split; lra.
Qed.

Lemma deficit_beyond_limit_overdrawn_witness :
  snd (battery_sim (Battery.mk "Tesla" 13.5 5 0.9 0.5) (-8)) <= -8 - 5 * time_step
  /\ snd (battery_sim (Battery.mk "Tesla" 13.5 5 0.9 0.5) (-8)) < -8
  /\ Battery.stored (fst (battery_sim (Battery.mk "Tesla" 13.5 5 0.9 0.5) (-8)))
     <= Battery.stored (Battery.mk "Tesla" 13.5 5 0.9 0.5).
Proof.
  apply (deficit_beyond_limit_overdrawn (Battery.mk "Tesla" 13.5 5 0.9 0.5) (-8)).
  - split; vm_compute; discriminate.
  - vm_compute; discriminate.
  - vm_compute; reflexivity.
  - vm_compute; reflexivity.
Defined.

(** X4: on a battery in a sane state with a non-negative max power, a
    surplus never lowers the stored energy and a deficit never raises it. *)
Theorem stored_follows_input_sign (b : Battery.t) (e : Q) :
  0 <= Battery.soc b <= 1 ->
  0 <= Battery.capacity b ->
  0 <= Battery.max_power b ->
  (0 <= e -> Battery.stored b <= Battery.stored (fst (battery_sim b e)))
  /\ (e <= 0 -> Battery.stored (fst (battery_sim b e)) <= Battery.stored b).
Proof.
  intros Hsoc Hcap Hmp.
  pose proof (stored_bounds b Hsoc Hcap) as Hst.
  assert (Hemax : 0 <= Battery.max_power b * time_step)
    by (unfold time_step; lra).
  destruct (inverter_limit b e) as [r s] eqn:Hlim.
  assert (Hsign : (0 <= e -> 0 <= s) /\ (e <= 0 -> s <= 0)).
  { revert Hlim. unfold inverter_limit.
    destruct (Qlt_le_dec _ _) as [H1|H1]; [|destruct (Qlt_le_dec _ _) as [H2|H2]];
      intros Hlim; injection Hlim as <- <-; split; intros; lra. }
  destruct Hsign as [Hs0 Hs1].
  dispatch_cases b e r s Hlim; unfold Battery.stored in *;
    split; intros He; try specialize (Hs0 He); try specialize (Hs1 He); lra.
Qed.

Lemma stored_follows_input_sign_witness :
  Battery.stored (Battery.mk "Tesla" 13.5 5 0.9 0.5)
  <= Battery.stored (fst (battery_sim (Battery.mk "Tesla" 13.5 5 0.9 0.5) 9)).
Proof.
  apply (proj1 (stored_follows_input_sign (Battery.mk "Tesla" 13.5 5 0.9 0.5) 9
                  ltac:(split; vm_compute; discriminate)
                  ltac:(vm_compute; discriminate)
                  ltac:(vm_compute; discriminate))).
  vm_compute; discriminate.
Defined.

(** ** Solar panel over time *)

(** [solar_sim] writes nothing but the rated power. *)
Lemma solar_sim_params (p : SolarPanel.t) (irr temp_a : Q) :
  SolarPanel.efficiency (fst (solar_sim p irr temp_a)) = SolarPanel.efficiency p
  /\ SolarPanel.tcp (fst (solar_sim p irr temp_a)) = SolarPanel.tcp p
  /\ SolarPanel.degradation (fst (solar_sim p irr temp_a)) = SolarPanel.degradation p.
Proof. repeat split. Qed.

(** The energy of a step as a product of the rated power and a factor that
    does not involve it. *)
Lemma solar_sim_output_product (p : SolarPanel.t) (irr temp_a : Q) :
  snd (solar_sim p irr temp_a)
  == SolarPanel.power p
     * (SolarPanel.efficiency p * irr * (1 + 15 * SolarPanel.tcp p)).
Proof. unfold solar_sim, time_step. cbn [fst snd]. field. Qed.

Lemma output_factor_nonneg (p : SolarPanel.t) (irr : Q) :
  0 <= SolarPanel.efficiency p -> 0 <= irr -> - (1 # 15) <= SolarPanel.tcp p ->
  0 <= SolarPanel.efficiency p * irr * (1 + 15 * SolarPanel.tcp p).
Proof.
  intros He Hi Ht.
  apply Qmult_le_0_compat; [apply Qmult_le_0_compat; assumption | lra].
Qed.

Lemma power_after_closed_form (n : nat) :
  forall (samples : list (Q * Q)) (p : SolarPanel.t),
    (n <= List.length samples)%nat ->
    power_after p samples n
    == SolarPanel.power p
       * (1 - SolarPanel.degradation p / (24 * 365)) ^ Z.of_nat n.
Proof.
  unfold power_after, solar_run.
  induction n as [|n IH]; intros samples p Hlen.
  - simpl. ring.
  - destruct samples as [|[irr temp_a] rest]; [simpl in Hlen; lia|].
    simpl in Hlen. apply le_S_n in Hlen.
    change (firstn (S n) ((irr, temp_a) :: rest)) with ((irr, temp_a) :: firstn n rest).
    cbn [fold_left fst snd].
    rewrite (IH rest _ Hlen).
    rewrite solar_sim_degradation_fixed.
    rewrite Nat2Z.inj_succ, <- Z.add_1_r.
    rewrite Qpower_plus' by lia.
    change (SolarPanel.power (fst (solar_sim p irr temp_a)))
      with (SolarPanel.power p * (1 - SolarPanel.degradation p / (24 * 365))).
    change ((1 - SolarPanel.degradation p / (24 * 365)) ^ 1)
      with (1 - SolarPanel.degradation p / (24 * 365)).
    ring.
Qed.

(** X5: after [n] simulated hours (whatever their irradiance and
    temperature) the rated power is the initial rated power times
    (1 - degradation / (24 * 365)) to the power [n]. *)
Theorem rated_power_compounds (p : SolarPanel.t) (samples : list (Q * Q)) (n : nat) :
  (n <= List.length samples)%nat ->
  power_after p samples n
  == SolarPanel.power p
     * (1 - SolarPanel.degradation p / (24 * 365)) ^ Z.of_nat n.
Proof. apply power_after_closed_form. Qed.

Lemma rated_power_compounds_witness :
  power_after (SolarPanel.init "LG" (0.335 * 0.98) (-0.0036) 0.0033 42.0 0.95)
              [(0, 10); (0.5, 21); (0.9, 30)] 2
  == SolarPanel.power (SolarPanel.init "LG" (0.335 * 0.98) (-0.0036) 0.0033 42.0 0.95)
     * (1 - SolarPanel.degradation
              (SolarPanel.init "LG" (0.335 * 0.98) (-0.0036) 0.0033 42.0 0.95)
            / (24 * 365)) ^ Z.of_nat 2.
Proof.
  apply (rated_power_compounds
           (SolarPanel.init "LG" (0.335 * 0.98) (-0.0036) 0.0033 42.0 0.95)
           [(0, 10); (0.5, 21); (0.9, 30)] 2).
  simpl. lia.
Defined.

(** X6: a panel with non-negative rated power and efficiency and a
    temperature coefficient of at least -1/15 never returns negative energy
    for a non-negative irradiance, and returns zero energy at zero
    irradiance. *)
Theorem solar_output_nonneg (p : SolarPanel.t) (irr temp_a : Q) :
  0 <= SolarPanel.power p ->
  0 <= SolarPanel.efficiency p ->
  - (1 # 15) <= SolarPanel.tcp p ->
  0 <= irr ->
  0 <= snd (solar_sim p irr temp_a)
  /\ (irr == 0 -> snd (solar_sim p irr temp_a) == 0).
Proof.
  intros Hp He Ht Hi.
  rewrite solar_sim_output_product. split.
  - apply Qmult_le_0_compat; [exact Hp|].
    apply output_factor_nonneg; assumption.
  - intros Hz. rewrite Hz. ring.
Qed.

Lemma solar_output_nonneg_witness :
  0 <= snd (solar_sim (SolarPanel.init "LG" (0.335 * 0.98) (-0.0036) 0.0033 42.0 0.95)
                      0.7 31)
  /\ (0.7 == 0 ->
      snd (solar_sim (SolarPanel.init "LG" (0.335 * 0.98) (-0.0036) 0.0033 42.0 0.95)
                     0.7 31) == 0).
Proof.
  apply (solar_output_nonneg
           (SolarPanel.init "LG" (0.335 * 0.98) (-0.0036) 0.0033 42.0 0.95) 0.7 31);
    vm_compute; discriminate.
Defined.

(** X7: under the same conditions and a degradation rate strictly between
    0 and 1, an hour simulated after another one yields, for the same
    irradiance, no more energy than it would have yielded before. *)
Theorem later_hour_yields_no_more (p : SolarPanel.t) (irr0 temp0 irr temp_a : Q) :
  0 < SolarPanel.degradation p -> SolarPanel.degradation p < 1 ->
  0 <= SolarPanel.power p ->
  0 <= SolarPanel.efficiency p ->
  - (1 # 15) <= SolarPanel.tcp p ->
  0 <= irr ->
  snd (solar_sim (fst (solar_sim p irr0 temp0)) irr temp_a)
  <= snd (solar_sim p irr temp_a).
Proof.
  intros Hd0 Hd1 Hp He Ht Hi.
  rewrite !solar_sim_output_product.
  destruct (solar_sim_params p irr0 temp0) as (Ee & Et & _). rewrite Ee, Et.
  destruct (solar_sim_power_step p irr0 temp0 Hd0 Hd1 Hp) as [_ Hle].
  apply Qmult_le_compat_r; [exact Hle|].
  apply output_factor_nonneg; assumption.
Qed.

Lemma later_hour_yields_no_more_witness :
  snd (solar_sim (fst (solar_sim
                         (SolarPanel.init "REC" (0.330 * 0.975) (-0.0034) 0.007 44.6 0.95)
                         0.2 15)) 0.8 30)
  <= snd (solar_sim (SolarPanel.init "REC" (0.330 * 0.975) (-0.0034) 0.007 44.6 0.95)
                    0.8 30).
Proof.
  apply (later_hour_yields_no_more
           (SolarPanel.init "REC" (0.330 * 0.975) (-0.0034) 0.007 44.6 0.95)
           0.2 15 0.8 30);
    vm_compute; try reflexivity; discriminate.
Defined.


(** ** Time-of-use plan E13 *)

(** [e13_usage] only ever adds to the usage cost. *)
Lemma e13_usage_adds (self : EnergyPlan.t) (time : datetime.t) (energy : Q) :
  e13_usage self time energy
  = EnergyPlan.add_usage self
      (energy * (if Qlt_le_dec 0 energy then e13_import_rate time else 0.0281)).
Proof.
  unfold e13_usage, e13_import_rate.
  destruct (Qlt_le_dec 0 energy); [|reflexivity].
  destruct (is_peak_summer time); [destruct (afternoon_peak time); reflexivity|].
  destruct (is_winter time);
    [destruct (winter_peak time) | destruct (afternoon_peak time)]; reflexivity.
Qed.

Lemma e13_import_rate_bounds (time : datetime.t) :
  0.0691 <= e13_import_rate time <= 0.2409.
Proof.
  unfold e13_import_rate.
  destruct (is_peak_summer time), (is_winter time), (afternoon_peak time),
    (winter_peak time); split; vm_compute; discriminate.
Qed.

(** Neither window contains a Saturday or a Sunday. *)
Lemma weekend_off_peak (time : datetime.t) :
  (5 <= datetime.weekday time)%Z ->
  afternoon_peak time = false /\ winter_peak time = false.
Proof.
  intros H. unfold afternoon_peak, winter_peak.
  assert (E : (datetime.weekday time <? 5)%Z = false) by (apply Z.ltb_ge; exact H).
  rewrite E, !andb_false_r. split; reflexivity.
Qed.

(** X9: under E13, exported or zero energy (energy <= 0) is credited at
    the flat rate 0.0281 whatever the month, hour and weekday, and touches
    nothing but the usage cost. *)
Theorem e13_export_flat_rate (self : EnergyPlan.t) (time : datetime.t) (energy : Q) :
  energy <= 0 ->
  EnergyPlan.usage_cost (e13_usage self time energy)
  == EnergyPlan.usage_cost self + energy * 0.0281
  /\ EnergyPlan.usage_cost (e13_usage self time energy) <= EnergyPlan.usage_cost self
  /\ EnergyPlan.daily_peaks (e13_usage self time energy) = EnergyPlan.daily_peaks self
  /\ EnergyPlan.peak (e13_usage self time energy) = EnergyPlan.peak self.
Proof.
  intros Hneg. rewrite e13_usage_adds.
  destruct (Qlt_le_dec 0 energy) as [Hpos|_]; [lra|].
  simpl. repeat split; try reflexivity.
  assert (H : energy * 0.0281 == energy * (281 # 10000)) by reflexivity.
  lra.
Qed.

Lemma e13_export_flat_rate_witness :
  EnergyPlan.usage_cost (e13_usage (EnergyPlan.init "E13") (datetime.mk 2020 7 1 15) (-10))
  == EnergyPlan.usage_cost (EnergyPlan.init "E13") + -10 * 0.0281
  /\ EnergyPlan.usage_cost (e13_usage (EnergyPlan.init "E13") (datetime.mk 2020 7 1 15) (-10))
     <= EnergyPlan.usage_cost (EnergyPlan.init "E13")
  /\ EnergyPlan.daily_peaks (e13_usage (EnergyPlan.init "E13") (datetime.mk 2020 7 1 15) (-10))
     = EnergyPlan.daily_peaks (EnergyPlan.init "E13")
  /\ EnergyPlan.peak (e13_usage (EnergyPlan.init "E13") (datetime.mk 2020 7 1 15) (-10))
     = EnergyPlan.peak (EnergyPlan.init "E13").
Proof.
  apply (e13_export_flat_rate (EnergyPlan.init "E13") (datetime.mk 2020 7 1 15) (-10)).
  vm_compute. discriminate.
Defined.

(** X10: under E13, imported energy (energy > 0) raises the usage cost by
    the energy times a rate between 0.0691 and 0.2409, and on a Saturday or
    Sunday by at most 0.0730 per unit. *)
Theorem e13_import_rate_range (self : EnergyPlan.t) (time : datetime.t) (energy : Q) :
  0 < energy ->
  EnergyPlan.usage_cost self + energy * 0.0691
  <= EnergyPlan.usage_cost (e13_usage self time energy)
  /\ EnergyPlan.usage_cost (e13_usage self time energy)
     <= EnergyPlan.usage_cost self + energy * 0.2409
  /\ ((5 <= datetime.weekday time)%Z ->
      EnergyPlan.usage_cost (e13_usage self time energy)
      <= EnergyPlan.usage_cost self + energy * 0.0730).
Proof.
  intros Hpos. rewrite e13_usage_adds.
  destruct (Qlt_le_dec 0 energy) as [_|Hle]; [|lra].
  simpl.
  destruct (e13_import_rate_bounds time) as [Hlo Hhi].
  assert (Hl : energy * 0.0691 <= energy * e13_import_rate time).
  { rewrite (Qmult_comm energy 0.0691), (Qmult_comm energy (e13_import_rate time)).
    apply Qmult_le_compat_r; lra. }
  assert (Hh : energy * e13_import_rate time <= energy * 0.2409).
  { rewrite (Qmult_comm energy 0.2409), (Qmult_comm energy (e13_import_rate time)).
    apply Qmult_le_compat_r; lra. }
  repeat split; try lra.
  intros Hwe. destruct (weekend_off_peak time Hwe) as [Ha Hw].
  assert (Hr : e13_import_rate time <= 0.0730).
  { unfold e13_import_rate. rewrite Ha, Hw.
    destruct (is_peak_summer time), (is_winter time); vm_compute; discriminate. }
  assert (Hm : energy * e13_import_rate time <= energy * 0.0730).
  { rewrite (Qmult_comm energy 0.0730), (Qmult_comm energy (e13_import_rate time)).
    apply Qmult_le_compat_r; lra. }
  lra.
Qed.

Lemma e13_import_rate_range_witness :
  EnergyPlan.usage_cost (EnergyPlan.init "E13") + 2 * 0.0691
  <= EnergyPlan.usage_cost (e13_usage (EnergyPlan.init "E13") (datetime.mk 2020 7 4 15) 2)
  /\ EnergyPlan.usage_cost (e13_usage (EnergyPlan.init "E13") (datetime.mk 2020 7 4 15) 2)
     <= EnergyPlan.usage_cost (EnergyPlan.init "E13") + 2 * 0.2409
  /\ ((5 <= datetime.weekday (datetime.mk 2020 7 4 15))%Z ->
      EnergyPlan.usage_cost (e13_usage (EnergyPlan.init "E13") (datetime.mk 2020 7 4 15) 2)
      <= EnergyPlan.usage_cost (EnergyPlan.init "E13") + 2 * 0.0730).
Proof.
  apply (e13_import_rate_range (EnergyPlan.init "E13") (datetime.mk 2020 7 4 15) 2).
  reflexivity.
Defined.

(** The usage cost of an export-only run never rises. *)
Lemma e13_run_exports (calls : list (datetime.t * Q)) :
  forall self : EnergyPlan.t,
    Forall (fun c => snd c <= 0) calls ->
    EnergyPlan.usage_cost (e13_run self calls) <= EnergyPlan.usage_cost self.
Proof.
  unfold e13_run.
  induction calls as [|[time energy] rest IH]; intros self Hall; simpl.
  - lra.
  - inversion Hall as [|c l Hc Hrest]; subst. simpl in Hc.
    specialize (IH (e13_usage self time energy) Hrest).
    rewrite e13_usage_adds in IH |- *.
    destruct (Qlt_le_dec 0 energy) as [Hpos|_]; [lra|].
    simpl in IH |- *.
    assert (H : energy * 0.0281 == energy * (281 # 10000)) by reflexivity.
    lra.
Qed.

(** X11: a billing period of a fresh E13 plan in which every hour exports
    (or exchanges nothing) is billed exactly the service charge: the credits
    are dropped at settlement. *)
Theorem e13_export_only_period (name : string) (calls : list (datetime.t * Q))
  (time : datetime.t) :
  Forall (fun c => snd c <= 0) calls ->
  snd (e13_total (e13_run (EnergyPlan.init name) calls) time) == 32.44.
Proof.
  intros Hall.
  pose proof (e13_run_exports calls (EnergyPlan.init name) Hall) as Hle.
  simpl in Hle. unfold e13_total. simpl.
  destruct (Qlt_le_dec _ _) as [Hpos|_]; [|reflexivity].
  change (0.0 : Q) with (0 # 10) in Hpos. lra.
Qed.

Lemma e13_export_only_period_witness :
  snd (e13_total (e13_run (EnergyPlan.init "E13")
                          [(datetime.mk 2020 7 1 12, -3); (datetime.mk 2020 7 1 13, 0)])
                 (datetime.mk 2020 7 31 23)) == 32.44.
Proof.
  apply (e13_export_only_period "E13"
           [(datetime.mk 2020 7 1 12, -3); (datetime.mk 2020 7 1 13, 0)]
           (datetime.mk 2020 7 31 23)).
  repeat constructor; vm_compute; discriminate.
Defined.

(** X12: whatever the accumulated state, both settlements bill at least the
    service charge, and the E15 bill is always a number, NaN never reaches
    it. *)
Theorem bill_at_least_service_charge (self : EnergyPlan.t) (time : datetime.t) :
  32.44 <= snd (e13_total self time)
  /\ exists bill : Q, snd (e15_total self time) = Some bill /\ 32.44 <= bill.
Proof.
  split.
  - unfold e13_total. simpl.
    destruct (Qlt_le_dec _ _) as [Hpos|_]; [|lra].
    change (0.0 : Q) with (0 # 10) in Hpos. lra.
  - rewrite e15_total_by_amount. unfold e15_amount.
    destruct (np_mean (EnergyPlan.daily_peaks self)) as [m|]; simpl.
    + destruct (Qlt_le_dec _ _) as [Hpos|_].
      * eexists. split; [reflexivity|].
        change (0.0 : Q) with (0 # 10) in Hpos. lra.
      * exists 32.44. split; [reflexivity|lra].
    + exists 32.44. split; [reflexivity|lra].
Qed.

(** ** Demand-charge plan E15 *)

(** [e15_usage] as its hour-0 step followed by the branch of the season. *)
Lemma e15_usage_shape (self : EnergyPlan.t) (time : datetime.t) (energy : Q) :
  e15_usage self time energy
  = let opened := EnergyPlan.add_usage
                    (EnergyPlan.set_daily_peaks self (opened_slots self time))
                    (energy * e15_rate time) in
    if e15_on_peak time then raise_daily_peak opened energy else Ok opened.
Proof.
  unfold e15_usage, e15_on_peak, e15_rate, opened_slots.
  destruct (datetime.hour time =? 0)%Z;
    destruct (is_peak_summer time), (is_winter time), (afternoon_peak time),
      (winter_peak time); destruct self; reflexivity.
Qed.


(** On peak the hour is not 0, so no slot is opened. *)
Lemma on_peak_keeps_slots (self : EnergyPlan.t) (time : datetime.t) :
  e15_on_peak time = true -> opened_slots self time = EnergyPlan.daily_peaks self.
Proof.
  intros Hpeak. unfold opened_slots.
  destruct (Z.eqb_spec (datetime.hour time) 0) as [H0|_]; [|reflexivity].
  rewrite (hour0_off_peak time H0) in Hpeak. discriminate.
Qed.

(** The exact effect of an on-peak call on a non-empty list of peaks. *)
Lemma e15_usage_on_peak_slot (self : EnergyPlan.t) (time : datetime.t) (energy : Q)
  (earlier : list Q) (current : Q) :
  e15_on_peak time = true ->
  EnergyPlan.daily_peaks self = earlier ++ [current] ->
  exists s',
    e15_usage self time energy = Ok s'
    /\ EnergyPlan.daily_peaks s'
       = earlier ++ [if Qlt_le_dec current energy then energy else current].
Proof.
  intros Hpeak Hdp. rewrite e15_usage_shape. cbv zeta. rewrite Hpeak.
  rewrite (on_peak_keeps_slots self time Hpeak).
  unfold raise_daily_peak. cbn [EnergyPlan.daily_peaks EnergyPlan.add_usage
                                 EnergyPlan.set_daily_peaks].
  rewrite Hdp, rev_unit.
  destruct (Qlt_le_dec current energy).
  - eexists. split; [reflexivity|]. simpl. rewrite rev_involutive. reflexivity.
  - eexists. split; [reflexivity|]. simpl. reflexivity.
Qed.

(** X13: [e15_usage] raises exactly when it is called on peak while no
    daily-peak slot has been opened; the exception is then [IndexError],
    and no other exception ever comes out of it. *)
Theorem e15_usage_raises_iff (self : EnergyPlan.t) (time : datetime.t) (energy : Q) :
  (e15_usage self time energy = Raise IndexError
   <-> e15_on_peak time = true /\ EnergyPlan.daily_peaks self = [])
  /\ (forall ex, e15_usage self time energy = Raise ex -> ex = IndexError).
Proof.
  rewrite e15_usage_shape. cbv zeta.
  destruct (e15_on_peak time) eqn:Hpeak.
  - rewrite (on_peak_keeps_slots self time Hpeak).
    unfold raise_daily_peak.
    cbn [EnergyPlan.daily_peaks EnergyPlan.add_usage EnergyPlan.set_daily_peaks].
    destruct (EnergyPlan.daily_peaks self) as [|d ds] eqn:Hdp.
    + simpl. split; [split; auto|]. intros ex H. injection H as <-. reflexivity.
    + destruct (rev (d :: ds)) as [|c cs] eqn:Hrev.
      * apply (f_equal (@rev Q)) in Hrev. rewrite rev_involutive in Hrev. discriminate.
      * destruct (Qlt_le_dec c energy); split;
          try (split; [discriminate | intros [_ H]; discriminate]);
          intros ex H; discriminate.
  - split; [split; [discriminate | intros [H _]; discriminate]|].
    intros ex H. discriminate.
Qed.

(** With a slot open, a call completes and a slot is still open. *)
Lemma e15_usage_open (self : EnergyPlan.t) (time : datetime.t) (energy : Q) :
  EnergyPlan.daily_peaks self <> [] ->
  exists s', e15_usage self time energy = Ok s' /\ EnergyPlan.daily_peaks s' <> [].
Proof.
  intros Hne.
  destruct (e15_on_peak time) eqn:Hpeak.
  - destruct (exists_last Hne) as (earlier & current & Hdp).
    destruct (e15_usage_on_peak_slot self time energy earlier current Hpeak Hdp)
      as (s' & Hs & Hdp').
    exists s'. split; [exact Hs|]. rewrite Hdp'.
    intros H. apply app_eq_nil in H. destruct H as [_ H]. discriminate.
  - destruct (e15_usage_off_peak self time energy Hpeak) as (s' & Hs & Hdp').
    exists s'. split; [exact Hs|]. rewrite Hdp'. unfold opened_slots.
    destruct (datetime.hour time =? 0)%Z; [|exact Hne].
    intros H. apply app_eq_nil in H. destruct H as [_ H]. discriminate.
Qed.

Lemma e15_run_open (calls : list (datetime.t * Q)) :
  forall self : EnergyPlan.t,
    EnergyPlan.daily_peaks self <> [] ->
    exists s', e15_run self calls = Ok s' /\ EnergyPlan.daily_peaks s' <> [].
Proof.
  induction calls as [|[time energy] rest IH]; intros self Hne; simpl.
  - exists self. split; [reflexivity|exact Hne].
  - destruct (e15_usage_open self time energy Hne) as (s1 & Hs1 & Hne1).
    rewrite Hs1. simpl. apply IH. exact Hne1.
Qed.

(** X14: a sequence of [e15_usage] calls never raises when a daily-peak
    slot is already open or when its first call is made at hour 0; a slot
    is open afterwards. *)
Theorem e15_run_never_raises (self : EnergyPlan.t) (calls : list (datetime.t * Q)) :
  EnergyPlan.daily_peaks self <> []
  \/ (exists time energy rest,
         calls = (time, energy) :: rest /\ datetime.hour time = 0%Z) ->
  exists s', e15_run self calls = Ok s' /\ EnergyPlan.daily_peaks s' <> [].
Proof.
  intros [Hne | (time & energy & rest & -> & H0)].
  - apply e15_run_open. exact Hne.
  - simpl.
    destruct (e15_usage_off_peak self time energy (hour0_off_peak time H0))
      as (s1 & Hs1 & Hdp1).
    rewrite Hs1. simpl. apply e15_run_open. rewrite Hdp1.
    unfold opened_slots. rewrite H0. simpl.
    intros H. apply app_eq_nil in H. destruct H as [_ H]. discriminate.
Qed.

Lemma e15_run_never_raises_witness :
  exists s',
    e15_run (EnergyPlan.init "E15")
            [(datetime.mk 2020 7 1 0, 1); (datetime.mk 2020 7 1 15, 4);
             (datetime.mk 2020 7 1 16, 2)] = Ok s'
    /\ EnergyPlan.daily_peaks s' <> [].
Proof.
  apply (e15_run_never_raises (EnergyPlan.init "E15")
           [(datetime.mk 2020 7 1 0, 1); (datetime.mk 2020 7 1 15, 4);
            (datetime.mk 2020 7 1 16, 2)]).
  right. exists (datetime.mk 2020 7 1 0), 1, [(datetime.mk 2020 7 1 15, 4);
                                              (datetime.mk 2020 7 1 16, 2)].
  split; reflexivity.
Defined.

(** The usage cost after a completed call. *)
Lemma e15_usage_cost (self s' : EnergyPlan.t) (time : datetime.t) (energy : Q) :
  e15_usage self time energy = Ok s' ->
  EnergyPlan.usage_cost s' = EnergyPlan.usage_cost self + energy * e15_rate time.
Proof.
  rewrite e15_usage_shape. cbv zeta.
  destruct (e15_on_peak time).
  - unfold raise_daily_peak.
    destruct (rev _) as [|c cs]; [discriminate|].
    destruct (Qlt_le_dec c energy); intros H; injection H as <-; reflexivity.
  - intros H. injection H as <-. reflexivity.
Qed.



Lemma length_replace_last {A : Type} (l : list A) (x d : A) :
  In (last l d) l -> List.length (removelast l ++ [x]) = List.length l.
Proof.
  intros Hin.
  assert (Hne : l <> []) by (intros ->; contradiction).
  rewrite (app_removelast_last d Hne) at 2.
  rewrite !length_app. reflexivity.
Qed.

Lemma e15_usage_length (self s' : EnergyPlan.t) (time : datetime.t) (energy : Q) :
  e15_usage self time energy = Ok s' ->
  List.length (EnergyPlan.daily_peaks s')
  = (List.length (EnergyPlan.daily_peaks self)
     + (if (datetime.hour time =? 0)%Z then 1 else 0))%nat.
Proof.
  intros Hrun.
  assert (Hopen : List.length (opened_slots self time)
                  = (List.length (EnergyPlan.daily_peaks self)
                     + (if (datetime.hour time =? 0)%Z then 1 else 0))%nat).
  { unfold opened_slots. destruct (datetime.hour time =? 0)%Z.
    - rewrite length_app. reflexivity.
    - lia. }
  destruct (e15_usage_peaks self s' time energy Hrun)
    as [Hsame | (_ & Hin & _ & Hnew)].
  - rewrite Hsame. exact Hopen.
  - rewrite Hnew, (length_replace_last _ energy 0 Hin). exact Hopen.
Qed.

(** X16: a completed sequence of [e15_usage] calls adds exactly one
    daily-peak slot per call made at hour 0, and none otherwise. *)
Theorem e15_one_slot_per_midnight (calls : list (datetime.t * Q)) :
  forall self s' : EnergyPlan.t,
    e15_run self calls = Ok s' ->
    List.length (EnergyPlan.daily_peaks s')
    = (List.length (EnergyPlan.daily_peaks self) + midnight_calls calls)%nat.
Proof.
  unfold midnight_calls.
  induction calls as [|[time energy] rest IH]; intros self s' Hrun; simpl in Hrun.
  - injection Hrun as <-. simpl. lia.
  - destruct (e15_usage self time energy) as [s1|ex] eqn:Hstep; simpl in Hrun;
      [|discriminate].
    rewrite (IH s1 s' Hrun), (e15_usage_length self s1 time energy Hstep).
    cbn [filter fst]. destruct (datetime.hour time =? 0)%Z; simpl; lia.
Qed.

Lemma e15_one_slot_per_midnight_witness :
  List.length (EnergyPlan.daily_peaks
                 (EnergyPlan.mk "E15" 0 [0; 4] (0 + 0 * 0.0412 + 4 * 0.0622)))
  = Nat.add (List.length (EnergyPlan.daily_peaks (EnergyPlan.mk "E15" 0 [0] 0)))
            (midnight_calls [(datetime.mk 2020 7 2 0, 0); (datetime.mk 2020 7 2 15, 4)]).
Proof.
  apply (e15_one_slot_per_midnight
           [(datetime.mk 2020 7 2 0, 0); (datetime.mk 2020 7 2 15, 4)]
           (EnergyPlan.mk "E15" 0 [0] 0)
           (EnergyPlan.mk "E15" 0 [0; 4] (0 + 0 * 0.0412 + 4 * 0.0622))).
  reflexivity.
Defined.

(** Calls of one day after its first hour: the open slot ends as the
    largest of its starting value and the energies of the on-peak calls. *)
Lemma e15_run_same_day (calls : list (datetime.t * Q)) :
  forall (self : EnergyPlan.t) (earlier : list Q) (current : Q),
    EnergyPlan.daily_peaks self = earlier ++ [current] ->
    Forall (fun c => datetime.hour (fst c) <> 0%Z) calls ->
    exists s' peak,
      e15_run self calls = Ok s'
      /\ EnergyPlan.daily_peaks s' = earlier ++ [peak]
      /\ current <= peak
      /\ Forall (fun c => e15_on_peak (fst c) = true -> snd c <= peak) calls
      /\ (peak = current
          \/ Exists (fun c => e15_on_peak (fst c) = true /\ peak = snd c) calls).
Proof.
  induction calls as [|[time energy] rest IH]; intros self earlier current Hdp Hhours.
  - exists self, current. simpl. repeat split; auto. lra.
  - inversion Hhours as [|c l Hh Hrest]; subst. simpl in Hh.
    destruct (e15_on_peak time) eqn:Hpeak.
    + destruct (e15_usage_on_peak_slot self time energy earlier current Hpeak Hdp)
        as (s1 & Hs1 & Hdp1).
      destruct (IH s1 earlier _ Hdp1 Hrest) as (s' & peak & Hrun & Hdp' & Hle & Hall & Hor).
      exists s', peak. simpl. rewrite Hs1. simpl.
      split; [exact Hrun|]. split; [exact Hdp'|].
      destruct (Qlt_le_dec current energy) as [Hlt|Hge].
      * split; [lra|]. split.
        -- constructor; [intros _; exact Hle | exact Hall].
        -- right. destruct Hor as [-> | Hex].
           ++ apply Exists_cons_hd. split; [exact Hpeak|reflexivity].
           ++ apply Exists_cons_tl. exact Hex.
      * split; [exact Hle|]. split.
        -- constructor; [intros _; simpl; lra | exact Hall].
        -- destruct Hor as [-> | Hex]; [left; reflexivity|].
           right. apply Exists_cons_tl. exact Hex.
    + destruct (e15_usage_off_peak self time energy Hpeak) as (s1 & Hs1 & Hdp1).
      assert (Hdp1' : EnergyPlan.daily_peaks s1 = earlier ++ [current]).
      { rewrite Hdp1. unfold opened_slots.
        destruct (Z.eqb_spec (datetime.hour time) 0); [contradiction|exact Hdp]. }
      destruct (IH s1 earlier current Hdp1' Hrest)
        as (s' & peak & Hrun & Hdp' & Hle & Hall & Hor).
      exists s', peak. simpl. rewrite Hs1. simpl.
      split; [exact Hrun|]. split; [exact Hdp'|]. split; [exact Hle|]. split.
      * constructor; [simpl; rewrite Hpeak; discriminate | exact Hall].
      * destruct Hor as [-> | Hex]; [left; reflexivity|].
        right. apply Exists_cons_tl. exact Hex.
Qed.

(** X17: the 24 hourly calls of any day, on any plan state, complete and
    append one daily peak; that peak is non-negative, at least the energy of
    every on-peak hour of the day, and is either 0.0 or the energy of one of
    the on-peak hours: it is the largest on-peak import of the day. *)
Theorem e15_day_peak_is_max (self : EnergyPlan.t) (y m d : Z) (energy_at : Z -> Q) :
  exists s' peak,
    e15_run self (day_calls y m d energy_at) = Ok s'
    /\ EnergyPlan.daily_peaks s' = EnergyPlan.daily_peaks self ++ [peak]
    /\ 0 <= peak
    /\ (forall h, (0 <= h < 24)%Z ->
                  e15_on_peak (datetime.mk y m d h) = true -> energy_at h <= peak)
    /\ (peak = 0.0
        \/ exists h, (0 <= h < 24)%Z
                     /\ e15_on_peak (datetime.mk y m d h) = true
                     /\ peak = energy_at h).
Proof.
  unfold day_calls.
  change (seq 0 24) with (0%nat :: seq 1 23).
  cbn [map]. change (Z.of_nat 0) with 0%Z.
  set (f := fun h : nat => (datetime.mk y m d (Z.of_nat h), energy_at (Z.of_nat h))).
  assert (H0 : datetime.hour (datetime.mk y m d 0) = 0%Z) by reflexivity.
  destruct (e15_usage_off_peak self (datetime.mk y m d 0) (energy_at 0%Z)
              (hour0_off_peak _ H0)) as (s1 & Hs1 & Hdp1).
  unfold opened_slots in Hdp1. rewrite H0 in Hdp1. simpl in Hdp1.
  assert (Hhours : Forall (fun c => datetime.hour (fst c) <> 0%Z) (map f (seq 1 23))).
  { apply Forall_forall. intros c Hc. apply in_map_iff in Hc.
    destruct Hc as (n & <- & Hn). apply in_seq in Hn. simpl. lia. }
  destruct (e15_run_same_day (map f (seq 1 23)) s1 (EnergyPlan.daily_peaks self) 0.0
              Hdp1 Hhours) as (s' & peak & Hrun & Hdp' & Hle & Hall & Hor).
  exists s', peak. cbn [e15_run]. rewrite Hs1. cbn [bind].
  split; [exact Hrun|]. split; [exact Hdp'|].
  split; [change (0.0 : Q) with (0 # 10) in Hle; lra|].
  split.
  - intros h Hh Hpeak.
    destruct (Z.eq_dec h 0) as [->|Hnz].
    + rewrite (hour0_off_peak _ H0) in Hpeak. discriminate.
    + rewrite Forall_forall in Hall.
      assert (Hin : In (f (Z.to_nat h)) (map f (seq 1 23))).
      { apply in_map. apply in_seq. lia. }
      specialize (Hall _ Hin). unfold f in Hall. simpl in Hall.
      rewrite Z2Nat.id in Hall by lia. apply Hall. exact Hpeak.
  - destruct Hor as [-> | Hex]; [left; reflexivity|].
    right. apply Exists_exists in Hex. destruct Hex as (c & Hc & Hpk & Heq).
    apply in_map_iff in Hc. destruct Hc as (n & <- & Hn). apply in_seq in Hn.
    exists (Z.of_nat n). simpl in Hpk, Heq. split; [lia|]. split; assumption.
Qed.

(** ** One hour of the loop *)

(** A dispatch on a battery without capacity and without power. *)
Lemma idle_battery_step (b : Battery.t) (x : Q) :
  Battery.capacity b == 0 ->
  Battery.max_power b == 0 ->
  snd (battery_sim b x) == x /\ fst (battery_sim b x) = b.
Proof.
  intros Hcap Hmp.
  assert (Hstored : Battery.soc b * Battery.capacity b == 0) by (rewrite Hcap; ring).
  assert (Hemax : Battery.max_power b * time_step == 0) by (rewrite Hmp; ring).
  destruct (inverter_limit b x) as [r s] eqn:Hlim.
  assert (Hrs : r == x /\ s == 0).
  { revert Hlim. unfold inverter_limit.
    destruct (Qlt_le_dec _ _); [|destruct (Qlt_le_dec _ _)];
      intros Hlim; injection Hlim as <- <-; split; lra. }
  destruct Hrs as [Hr Hs].
  rewrite (battery_sim_after_limit b x r s Hlim). cbv zeta.
  destruct (Qlt_le_dec _ _) as [Hover|_]; [lra|].
  destruct (Qlt_le_dec _ _) as [Hunder|_]; [change (0.0 : Q) with (0 # 10) in Hunder; lra|].
  destruct (Qeq_dec _ _) as [_|Hnz]; [|contradiction].
  simpl. split; [exact Hr|reflexivity].
Qed.

(** X18: with a battery of capacity 0 and max power 0 the grid energy of an
    hour is the load minus the generation and the battery is left as it
    was; if moreover the panel's rated power is 0, the grid energy is the
    load. *)
Theorem no_battery_grid_energy (panel : SolarPanel.t) (battery : Battery.t)
  (irradiance temp load : Q) :
  Battery.capacity battery == 0 ->
  Battery.max_power battery == 0 ->
  snd (grid_energy panel battery irradiance temp load)
  == load - snd (solar_sim panel irradiance temp)
  /\ snd (fst (grid_energy panel battery irradiance temp load)) = battery
  /\ (SolarPanel.power panel == 0 ->
      snd (grid_energy panel battery irradiance temp load) == load).
Proof.
  intros Hcap Hmp. unfold grid_energy.
  pose proof (solar_sim_output_product panel irradiance temp) as Hout.
  destruct (solar_sim panel irradiance temp) as [panel' generated]. simpl in Hout.
  destruct (idle_battery_step battery (generated - load) Hcap Hmp)
    as [Hres Hbat].
  destruct (battery_sim battery (generated - load)) as [battery' residual].
  simpl in Hres, Hbat |- *.
  repeat split.
  - lra.
  - exact Hbat.
  - intros Hp. rewrite Hp in Hout. lra.
Qed.

Lemma no_battery_grid_energy_witness :
  snd (grid_energy (SolarPanel.init "None" 0 0 0 0 0) (Battery.init "None" 0 0 0) 0.6 25 2)
  == 2 - snd (solar_sim (SolarPanel.init "None" 0 0 0 0 0) 0.6 25)
  /\ snd (fst (grid_energy (SolarPanel.init "None" 0 0 0 0 0)
                           (Battery.init "None" 0 0 0) 0.6 25 2))
     = Battery.init "None" 0 0 0
  /\ (SolarPanel.power (SolarPanel.init "None" 0 0 0 0 0) == 0 ->
      snd (grid_energy (SolarPanel.init "None" 0 0 0 0 0)
                       (Battery.init "None" 0 0 0) 0.6 25 2) == 2).
Proof.
  apply (no_battery_grid_energy (SolarPanel.init "None" 0 0 0 0 0)
           (Battery.init "None" 0 0 0) 0.6 25 2); reflexivity.
Defined.

(** ** Whole billing periods *)

Lemma e13_run_cost (calls : list (datetime.t * Q)) :
  forall self : EnergyPlan.t,
    EnergyPlan.usage_cost (e13_run self calls)
    == EnergyPlan.usage_cost self + Qsum (map e13_hour_cost calls).
Proof.
  unfold e13_run.
  induction calls as [|[time energy] rest IH]; intros self; simpl.
  - ring.
  - rewrite IH, e13_usage_adds. unfold e13_hour_cost. simpl. ring.
Qed.

(** X19: the bill of a billing period of a fresh E13 plan is the service
    charge plus the sum of the hourly costs (energy times the import rate
    of the hour, or times 0.0281 for an export) when that sum is positive,
    and the service charge alone otherwise. *)
Theorem e13_period_bill (name : string) (calls : list (datetime.t * Q))
  (time : datetime.t) :
  (0 < Qsum (map e13_hour_cost calls) ->
   snd (e13_total (e13_run (EnergyPlan.init name) calls) time)
   == 32.44 + Qsum (map e13_hour_cost calls))
  /\ (Qsum (map e13_hour_cost calls) <= 0 ->
      snd (e13_total (e13_run (EnergyPlan.init name) calls) time) == 32.44).
Proof.
  pose proof (e13_run_cost calls (EnergyPlan.init name)) as Hcost.
  simpl in Hcost. unfold e13_total. simpl.
  destruct (Qlt_le_dec _ _) as [Hpos|Hle];
    [change (0.0 : Q) with (0 # 10) in Hpos | change (0.0 : Q) with (0 # 10) in Hle];
    split; intros H; lra.
Qed.

Lemma e13_period_bill_witness :
  snd (e13_total (e13_run (EnergyPlan.init "E13")
                          [(datetime.mk 2020 7 1 15, 2); (datetime.mk 2020 7 1 16, -1)])
                 (datetime.mk 2020 7 31 23))
  == 32.44 + Qsum (map e13_hour_cost
                       [(datetime.mk 2020 7 1 15, 2); (datetime.mk 2020 7 1 16, -1)]).
Proof.
  apply (proj1 (e13_period_bill "E13"
                  [(datetime.mk 2020 7 1 15, 2); (datetime.mk 2020 7 1 16, -1)]
                  (datetime.mk 2020 7 31 23))).
  vm_compute. reflexivity.
Defined.

(** X20: when a sequence of [e15_usage] calls completes, the usage cost has
    grown by the sum over the calls of energy times the rate of the hour,
    imports and exports alike. *)
Theorem e15_run_cost (calls : list (datetime.t * Q)) :
  forall self s' : EnergyPlan.t,
    e15_run self calls = Ok s' ->
    EnergyPlan.usage_cost s'
    == EnergyPlan.usage_cost self + Qsum (map e15_hour_cost calls).
Proof.
  induction calls as [|[time energy] rest IH]; intros self s' Hrun; simpl in Hrun.
  - injection Hrun as <-. simpl. ring.
  - destruct (e15_usage self time energy) as [s1|ex] eqn:Hstep; simpl in Hrun;
      [|discriminate].
    rewrite (IH s1 s' Hrun), (e15_usage_cost self s1 time energy Hstep).
    unfold e15_hour_cost. simpl. ring.
Qed.

Lemma e15_run_cost_witness :
  EnergyPlan.usage_cost (EnergyPlan.mk "E15" 0 [0; 4] (0 + 0 * 0.0412 + 4 * 0.0622))
  == EnergyPlan.usage_cost (EnergyPlan.mk "E15" 0 [0] 0)
     + Qsum (map e15_hour_cost
                 [(datetime.mk 2020 7 2 0, 0); (datetime.mk 2020 7 2 15, 4)]).
Proof.
  apply (e15_run_cost [(datetime.mk 2020 7 2 0, 0); (datetime.mk 2020 7 2 15, 4)]
           (EnergyPlan.mk "E15" 0 [0] 0)
           (EnergyPlan.mk "E15" 0 [0; 4] (0 + 0 * 0.0412 + 4 * 0.0622))).
  reflexivity.
Defined.

Lemma Qsum_nonneg (l : list Q) : Forall (fun x => 0 <= x) l -> 0 <= Qsum l.
Proof.
  induction 1 as [|x l Hx Hl IH]; simpl; lra.
Qed.

Lemma e15_demand_rate_pos (time : datetime.t) : 0 < e15_demand_rate time.
Proof.
  unfold e15_demand_rate.
  destruct (is_peak_summer time), (is_winter time); reflexivity.
Qed.

(** X21: with at least one daily peak recorded, none of them negative, and
    a positive usage cost, the E15 bill is at least the service charge plus
    the usage cost: the demand charge never lowers a bill. *)
Theorem e15_demand_charge_adds (self : EnergyPlan.t) (time : datetime.t) :
  EnergyPlan.daily_peaks self <> [] ->
  Forall (fun x => 0 <= x) (EnergyPlan.daily_peaks self) ->
  0 < EnergyPlan.usage_cost self ->
  exists bill : Q,
    snd (e15_total self time) = Some bill
    /\ 32.44 + EnergyPlan.usage_cost self <= bill.
Proof.
  intros Hne Hnn Hpos.
  rewrite e15_total_by_amount, (e15_amount_mean self time Hne).
  unfold np_mean.
  destruct (EnergyPlan.daily_peaks self) as [|d ds] eqn:Hdp; [contradiction|].
  set (n := inject_Z (Z.of_nat (List.length (d :: ds)))).
  assert (Hn : 0 < n).
  { unfold n. change 0 with (inject_Z 0). rewrite <- Zlt_Qlt. simpl. lia. }
  assert (Hmean : 0 <= Qsum (d :: ds) / n).
  { apply Qle_shift_div_l; [exact Hn|]. pose proof (Qsum_nonneg _ Hnn). lra. }
  assert (Hcharge : 0 <= Qsum (d :: ds) / n * e15_demand_rate time).
  { apply Qmult_le_0_compat; [exact Hmean|].
    apply Qlt_le_weak, e15_demand_rate_pos. }
  cbn [fgt fadd fmul]. fold n.
  destruct (Qlt_le_dec _ _) as [_|Hle].
  - eexists. split; [reflexivity|]. lra.
  - change (0.0 : Q) with (0 # 10) in Hle. lra.
Qed.

Lemma e15_demand_charge_adds_witness :
  exists bill : Q,
    snd (e15_total (EnergyPlan.mk "E15" 0 [5; 3] 10) (datetime.mk 2020 7 31 23)) = Some bill
    /\ 32.44 + EnergyPlan.usage_cost (EnergyPlan.mk "E15" 0 [5; 3] 10) <= bill.
Proof.
  apply (e15_demand_charge_adds (EnergyPlan.mk "E15" 0 [5; 3] 10) (datetime.mk 2020 7 31 23)).
  - discriminate.
  - repeat constructor; vm_compute; discriminate.
  - reflexivity.
Defined.
